(** * Session lifecycle of the WhatsApp session generator (src/app/page.tsx)

    A shallow embedding of the stateful logic of the React component
    [WhatsAppSessionGenerator]: the three pieces of component state, the
    generators, the event handlers and the callbacks they hand to
    [setTimeout].  The handlers are written in a small state monad over a
    [World] that gathers the component state together with what the
    handlers reach in the platform: the toast log, the pending timers, the
    clock with the number of its readings, the number of [Math.random()]
    calls made so far and the clipboard. *)

From Stdlib Require Import String Ascii List Bool Arith ZArith NArith Lia
  DecimalString DecimalPos DecimalZ Sorted.
Import ListNotations.

Local Open Scope list_scope.
Local Open Scope string_scope.

(** ** Data model *)

(** [status: "disconnected" | "connecting" | "connected"] *)
Inductive Status : Type := disconnected | connecting | connected.

(** [interface SessionData]; an optional field is an [option], [Date] is
    its millisecond time stamp. *)
Record SessionData : Type := mkSession {
  sessionId : string;
  status : Status;
  qrCode : option string;
  pairCode : option string;
  phoneNumber : option string;
  createdAt : Z
}.

(** The argument object of [toast({ title, description, variant })]. *)
Record Toast : Type := mkToast {
  title : string;
  description : string;
  variant : option string
}.

(** How a handler ends: it returns, or an exception leaves it. *)
Inductive Outcome : Type := returned | threw.

(** The closures given to [setTimeout].  The two [Resume] callbacks are the
    continuations of the handlers after their
    [await new Promise((resolve) => setTimeout(resolve, d))]; the pairing
    one carries the [phoneNumber] its closure captured.  [ConnectionTimeout]
    is the arrow function of lines 75-81 and 118-124, which captured
    [newSession.sessionId]. *)
Inductive Callback : Type :=
| ResumeCreateQR
| ResumeCreatePair (capturedPhoneNumber : string)
| ConnectionTimeout (capturedSessionId : string).

Record Timer : Type := mkTimer {
  due : Z;
  callback : Callback
}.

Record World : Type := mkWorld {
  sessions : list SessionData;   (* useState<SessionData[]>([]) *)
  phoneNumberInput : string;     (* useState(""), the [phoneNumber] state *)
  isGenerating : bool;           (* useState(false) *)
  toasts : list Toast;           (* toasts shown so far, oldest first *)
  timers : list Timer;           (* pending timers, in scheduling order *)
  now : Z;                       (* the clock when it was last read or ticked *)
  draws : nat;                   (* Math.random() calls made so far *)
  reads : nat;                   (* readings of the clock made so far *)
  clipboard : option string      (* the text the page has put on the clipboard *)
}.

Definition initialWorld : World :=
  mkWorld [] "" false [] [] 0 0 0 None.

(** A finite IEEE 754 double that is not negative:
    [mantissa * 2 ^ exponent], with a mantissa below [2 ^ 53] and an
    exponent from [-1074] on. *)
Record Double : Type := mkDouble {
  mantissa : Z;
  exponent : Z
}.

(** What the handlers take from the platform and the source does not
    define: the successive results of [Math.random()], the rendering
    [Number.prototype.toString(36)], the milliseconds that pass before
    each reading of the clock ([Date.now()], [new Date()] and the reading
    [setTimeout] takes), and [navigator.clipboard]: [None] when it is
    undefined, otherwise the texts whose [writeText] is fulfilled.  The
    model has one clock, which never goes back: the clock of [Date] and
    the clock of the timers are taken to agree. *)
Class Platform : Type := {
  Math_random : nat -> Double;
  toString36 : Double -> string;
  Date_elapsed : nat -> N;
  navigator_clipboard : option (string -> bool)
}.

(** [Math.random()] returns a double in [0, 1). *)
Definition unitInterval (r : Double) : Prop :=
  (0 <= mantissa r < 2 ^ 53)%Z /\ (-1074 <= exponent r <= 971)%Z
  /\ (mantissa r = 0%Z
      \/ (exponent r < 0 /\ mantissa r < 2 ^ (- exponent r))%Z).

(** ** The state monad of the handlers *)

Definition M (A : Type) : Type := World -> A * World.

Definition ret {A : Type} (a : A) : M A := fun w => (a, w).

Definition bind {A B : Type} (m : M A) (k : A -> M B) : M B :=
  fun w => k (fst (m w)) (snd (m w)).

Notation "x <- m ;; k" := (bind m (fun x => k))
  (at level 61, m at next level, right associativity).
Notation "m ;; k" := (bind m (fun _ => k))
  (at level 61, right associativity).

Definition exec {A : Type} (m : M A) (w : World) : World := snd (m w).
Definition eval {A : Type} (m : M A) (w : World) : A := fst (m w).

Definition setSessions (f : list SessionData -> list SessionData) : M unit :=
  fun w => (tt, mkWorld (f (sessions w)) (phoneNumberInput w) (isGenerating w)
                        (toasts w) (timers w) (now w) (draws w) (reads w)
                        (clipboard w)).

Definition setPhoneNumber (s : string) : M unit :=
  fun w => (tt, mkWorld (sessions w) s (isGenerating w)
                        (toasts w) (timers w) (now w) (draws w) (reads w)
                        (clipboard w)).

Definition setIsGenerating (b : bool) : M unit :=
  fun w => (tt, mkWorld (sessions w) (phoneNumberInput w) b
                        (toasts w) (timers w) (now w) (draws w) (reads w)
                        (clipboard w)).

Definition toast (t : Toast) : M unit :=
  fun w => (tt, mkWorld (sessions w) (phoneNumberInput w) (isGenerating w)
                        (toasts w ++ [t])%list (timers w) (now w) (draws w)
                        (reads w) (clipboard w)).

Definition setTimers (ts : list Timer) (w : World) : World :=
  mkWorld (sessions w) (phoneNumberInput w) (isGenerating w)
          (toasts w) ts (now w) (draws w) (reads w) (clipboard w).

Definition setNow (t : Z) (w : World) : World :=
  mkWorld (sessions w) (phoneNumberInput w) (isGenerating w)
          (toasts w) (timers w) t (draws w) (reads w) (clipboard w).

Definition setDraws (n : nat) (w : World) : World :=
  mkWorld (sessions w) (phoneNumberInput w) (isGenerating w)
          (toasts w) (timers w) (now w) n (reads w) (clipboard w).

Definition setClipboard (text : string) (w : World) : World :=
  mkWorld (sessions w) (phoneNumberInput w) (isGenerating w)
          (toasts w) (timers w) (now w) (draws w) (reads w) (Some text).

(** The clock is read: the time the platform lets pass before this
    reading has passed. *)
Definition readClock {platform : Platform} : M Z :=
  fun w =>
    let t := (now w + Z.of_N (Date_elapsed (reads w)))%Z in
    (t, mkWorld (sessions w) (phoneNumberInput w) (isGenerating w)
                (toasts w) (timers w) t (draws w) (S (reads w)) (clipboard w)).

(** [Date.now()], and the time stamp of [new Date()]. *)
Definition DateNow {platform : Platform} : M Z := readClock.

(** [setTimeout(cb, delay)]: the callback is due [delay] after the call. *)
Definition setTimeout {platform : Platform} (cb : Callback) (delay : Z) : M unit :=
  t <- readClock ;;
  fun w => (tt, setTimers (timers w ++ [mkTimer (t + delay)%Z cb])%list w).

Definition MathRandom {platform : Platform} : M Double :=
  fun w => (Math_random (draws w), setDraws (S (draws w)) w).

(** ** Arithmetic of doubles *)

(** [n / 2 ^ s] rounded to the nearest integer, a tie to the even one. *)
Definition roundShift (n s : Z) : Z :=
  let q := (n / 2 ^ s)%Z in
  let r := (n mod 2 ^ s)%Z in
  let half := (2 ^ (s - 1))%Z in
  if (r <? half)%Z then q
  else if (half <? r)%Z then (q + 1)%Z
       else if Z.even q then q else (q + 1)%Z.

(** The number of binary digits of [n]. *)
Definition bitLength (n : Z) : Z :=
  if (n =? 0)%Z then 0%Z else (Z.log2 n + 1)%Z.

(** The double nearest to [n * 2 ^ e], for [n] not negative, a tie to the
    even mantissa: 53 binary digits are kept, the exponent does not go
    below [-1074], and [None] is [Infinity], from [2 ^ 1024] on. *)
Definition roundDouble (n e : Z) : option Double :=
  let s := Z.max (bitLength n - 53) (-1074 - e) in
  let rounded := if (s <=? 0)%Z then mkDouble n e
                 else mkDouble (roundShift n s) (e + s) in
  if (1024 <? bitLength (mantissa rounded) + exponent rounded)%Z then None
  else Some rounded.

(** [a * b] on doubles: the exact product, rounded. *)
Definition Double_mul (a b : Double) : option Double :=
  roundDouble (mantissa a * mantissa b) (exponent a + exponent b).

(** The double of a length. *)
Definition Double_ofNat (n : nat) : Double := mkDouble (Z.of_nat n) 0.

(** [Math.floor(d)] as an integer. *)
Definition Math_floor (d : Double) : Z :=
  if (0 <=? exponent d)%Z then (mantissa d * 2 ^ exponent d)%Z
  else (mantissa d / 2 ^ (- exponent d))%Z.

(** ** String helpers of the platform *)

(** [`${n}`] for an integer [n]. *)
Definition decimal (n : Z) : string := NilZero.string_of_int (Z.to_int n).

(** [s.substring(2, 15)]: the characters at indices 2 to 14, fewer when
    the string is shorter. *)
Definition substring_2_15 (s : string) : string := String.substring 2 13 s.

(** [s.charAt(i)]: the one-character string at index [i], the empty string
    out of range. *)
Definition charAt (s : string) (i : Z) : string :=
  if (i <? 0)%Z then ""
  else match String.get (Z.to_nat i) s with
       | Some c => String c ""
       | None => ""
       end.

(** [parts.join(sep)] *)
Fixpoint join (sep : string) (parts : list string) : string :=
  match parts with
  | [] => ""
  | [p] => p
  | p :: rest => p ++ sep ++ join sep rest
  end.

(** The characters the regular expression [.] does not match (the line
    terminators that a byte string can hold). *)
Definition isLineTerminator (c : ascii) : bool :=
  (N_of_ascii c =? 10)%N || (N_of_ascii c =? 13)%N.

Definition flush (cur : string) : list string :=
  match cur with
  | "" => []
  | _ => [cur]
  end.

(** The matches of [/.{1,4}/g], left to right: greedy groups of up to four
    characters, cut at line terminators.  [cur] is the group being read. *)
Fixpoint matchGroups (cur : string) (s : string) : list string :=
  match s with
  | "" => flush cur
  | String c rest =>
      if isLineTerminator c then (flush cur ++ matchGroups "" rest)%list
      else if (String.length cur =? 4)%nat then cur :: matchGroups (String c "") rest
      else matchGroups (cur ++ String c "") rest
  end.

(** [s.match(/.{1,4}/g)]: [null] when nothing matches. *)
Definition match_1_4 (s : string) : option (list string) :=
  match matchGroups "" s with
  | [] => None
  | groups => Some groups
  end.

(** [a || b] on strings: the empty string is falsy. *)
Definition orElse (a : option string) (b : string) : string :=
  match a with
  | Some "" => b
  | Some s => s
  | None => b
  end.

Definition base64Alphabet : string :=
  "ABCDEFGHIJKLMNOPQRSTUVWXYZabcdefghijklmnopqrstuvwxyz0123456789+/".

Definition base64Digit (n : N) : string :=
  match String.get (N.to_nat n) base64Alphabet with
  | Some c => String c ""
  | None => ""
  end.

Fixpoint base64 (bytes : list N) : string :=
  match bytes with
  | [] => ""
  | [a] =>
      base64Digit (a / 4) ++ base64Digit ((a mod 4) * 16) ++ "=="
  | [a; b] =>
      base64Digit (a / 4) ++ base64Digit ((a mod 4) * 16 + b / 16)
      ++ base64Digit ((b mod 16) * 4) ++ "="
  | a :: b :: c :: rest =>
      base64Digit (a / 4) ++ base64Digit ((a mod 4) * 16 + b / 16)
      ++ base64Digit ((b mod 16) * 4 + c / 64) ++ base64Digit (c mod 64)
      ++ base64 rest
  end%N.

(** [btoa(s)] on a string of bytes. *)
Definition btoa (s : string) : string :=
  base64 (map N_of_ascii (list_ascii_of_string s)).

(** ** Generators (lines 29-50) *)

Section Handlers.

Context {platform : Platform}.

(** [Math.random().toString(36).substring(2, 15)] *)
Definition randomSuffix : M string :=
  r <- MathRandom ;;
  ret (substring_2_15 (toString36 r)).

Definition generateSessionId : M string :=
  timestamp <- DateNow ;;
  random <- randomSuffix ;;
  ret ("wa_session_" ++ decimal timestamp ++ "_" ++ random).

Definition generateQRCode : M string :=
  a <- randomSuffix ;;
  b <- randomSuffix ;;
  t <- DateNow ;;
  let qrData := "2@" ++ a ++ "," ++ b ++ "," ++ decimal t in
  ret (btoa qrData).

Definition chars : string := "ABCDEFGHIJKLMNOPQRSTUVWXYZ0123456789".

(** [chars.charAt(Math.floor(r * chars.length))]; [charAt(Infinity)] is
    the empty string. *)
Definition pick (r : Double) : string :=
  match Double_mul r (Double_ofNat (String.length chars)) with
  | Some product => charAt chars (Math_floor product)
  | None => ""
  end.

(** The loop [for (let i = 0; i < 8; i++) result += ...], with [n] the
    iterations still to run. *)
Fixpoint pairCodeLoop (n : nat) (result : string) : M string :=
  match n with
  | O => ret result
  | S n' =>
      r <- MathRandom ;;
      pairCodeLoop n' (result ++ pick r)
  end.

Definition generatePairCode : M string :=
  result <- pairCodeLoop 8 "" ;;
  ret (orElse (option_map (join "-") (match_1_4 result)) result).

(** ** Handlers (lines 52-155) *)

Definition hasId (id : string) (session : SessionData) : bool :=
  String.eqb (sessionId session) id.

(** [{ ...session, status: s }] *)
Definition withStatus (s : Status) (session : SessionData) : SessionData :=
  mkSession (sessionId session) s (qrCode session) (pairCode session)
            (phoneNumber session) (createdAt session).

(** [prev.map((session) => session.sessionId === id ? { ...session, status: s } : session)] *)
Definition markStatus (id : string) (s : Status) (prev : list SessionData)
  : list SessionData :=
  map (fun session => if hasId id session then withStatus s session else session) prev.

(** [createQRSession] up to its [await]. *)
Definition createQRSession : M unit :=
  setIsGenerating true ;;
  setTimeout ResumeCreateQR 1500.

(** The record [resumeCreateQR] builds in [w]. *)
Definition newQRSession (w : World) : SessionData :=
  mkSession (eval generateSessionId w) connecting
            (Some (eval generateQRCode (exec generateSessionId w))) None None
            (eval DateNow (exec generateQRCode (exec generateSessionId w))).

(** The record [resumeCreatePair phone] builds in [w]. *)
Definition newPairSession (phone : string) (w : World) : SessionData :=
  mkSession (eval generateSessionId w) connecting None
            (Some (eval generatePairCode (exec generateSessionId w))) (Some phone)
            (eval DateNow (exec generatePairCode (exec generateSessionId w))).

(** The world in which [resumeCreateQR] has evaluated its [newSession]. *)
Definition builtQR (w : World) : World :=
  exec DateNow (exec generateQRCode (exec generateSessionId w)).

(** The world in which [resumeCreatePair] has evaluated its [newSession]. *)
Definition builtPair (w : World) : World :=
  exec DateNow (exec generatePairCode (exec generateSessionId w)).

Definition qrCreatedToast : Toast :=
  mkToast "QR Session Created" "Scan the QR code with WhatsApp to connect" None.

Definition pairCreatedToast : Toast :=
  mkToast "Pair Code Generated"
          "Enter the code in WhatsApp Settings > Linked Devices" None.

(** [createQRSession] after its [await]. *)
Definition resumeCreateQR : M unit :=
  id <- generateSessionId ;;
  qr <- generateQRCode ;;
  date <- DateNow ;;
  let newSession := mkSession id connecting (Some qr) None None date in
  setSessions (fun prev => newSession :: prev) ;;
  setIsGenerating false ;;
  toast qrCreatedToast ;;
  setTimeout (ConnectionTimeout (sessionId newSession)) 30000.

Definition phoneNumberRequired : Toast :=
  mkToast "Phone Number Required"
          "Please enter a phone number for pairing" (Some "destructive").

(** [createPairSession] up to its [await]; [!phoneNumber] holds of the
    empty string only. *)
Definition createPairSession : M unit :=
  fun w =>
    if String.eqb (phoneNumberInput w) "" then toast phoneNumberRequired w
    else (setIsGenerating true ;;
          setTimeout (ResumeCreatePair (phoneNumberInput w)) 2000) w.

(** [createPairSession] after its [await]; [phoneNumber] is the value the
    handler's closure holds. *)
Definition resumeCreatePair (phoneNumber : string) : M unit :=
  id <- generateSessionId ;;
  code <- generatePairCode ;;
  date <- DateNow ;;
  let newSession := mkSession id connecting None (Some code) (Some phoneNumber) date in
  setSessions (fun prev => newSession :: prev) ;;
  setIsGenerating false ;;
  setPhoneNumber "" ;;
  toast pairCreatedToast ;;
  setTimeout (ConnectionTimeout (sessionId newSession)) 60000.

(** The callback of lines 75-81 and of lines 118-124. *)
Definition connectionTimeout (id : string) : M unit :=
  setSessions (markStatus id disconnected).

Definition copiedToast (type : string) : Toast :=
  mkToast "Copied!" (type ++ " copied to clipboard") None.

(** [navigator.clipboard.writeText(text)] throws a [TypeError] when
    [navigator.clipboard] is undefined, and the handler ends there.
    Otherwise it returns a promise the handler does not await: the text is
    on the clipboard when the promise is fulfilled, and the toast is shown
    whether it is fulfilled or rejected. *)
Definition copyToClipboard (text type : string) : M Outcome :=
  fun w =>
    match navigator_clipboard with
    | None => (threw, w)
    | Some fulfilled =>
        (returned,
         exec (toast (copiedToast type))
              (if fulfilled text then setClipboard text w else w))
    end.

Definition connectedToast : Toast :=
  mkToast "Connected!" "WhatsApp session is now active" None.

Definition simulateConnection (id : string) : M unit :=
  setSessions (markStatus id connected) ;;
  toast connectedToast.

Definition deletedToast : Toast :=
  mkToast "Session Deleted" "Session has been removed" None.

Definition deleteSession (id : string) : M unit :=
  setSessions (filter (fun session => negb (hasId id session))) ;;
  toast deletedToast.

Definition runCallback (cb : Callback) : M unit :=
  match cb with
  | ResumeCreateQR => resumeCreateQR
  | ResumeCreatePair phone => resumeCreatePair phone
  | ConnectionTimeout id => connectionTimeout id
  end.

(** ** Operations and the event loop *)

(** What can happen to the component: a handler is called, time passes, or
    the [k]-th pending timer runs its callback. *)
Inductive Op : Type :=
| CreateQRSession
| CreatePairSession
| SetPhoneNumber (value : string)
| SimulateConnection (id : string)
| DeleteSession (id : string)
| CopyToClipboard (text type : string)
| Tick (ms : N)
| Fire (k : nat).

Definition removeNth {A : Type} (k : nat) (l : list A) : list A :=
  (firstn k l ++ skipn (S k) l)%list.

Definition fire (k : nat) (w : World) : World :=
  match nth_error (timers w) k with
  | Some t => exec (runCallback (callback t)) (setTimers (removeNth k (timers w)) w)
  | None => w
  end.

Definition perform (op : Op) (w : World) : World :=
  match op with
  | CreateQRSession => exec createQRSession w
  | CreatePairSession => exec createPairSession w
  | SetPhoneNumber value => exec (setPhoneNumber value) w
  | SimulateConnection id => exec (simulateConnection id) w
  | DeleteSession id => exec (deleteSession id) w
  | CopyToClipboard text type => exec (copyToClipboard text type) w
  | Tick ms => setNow (now w + Z.of_N ms) w
  | Fire k => fire k w
  end.

Definition run (ops : list Op) (w : World) : World :=
  fold_left (fun w op => perform op w) ops w.

(** The worlds a run goes through, the starting one first. *)
Fixpoint trace (ops : list Op) (w : World) : list World :=
  match ops with
  | [] => [w]
  | op :: rest => w :: trace rest (perform op w)
  end.

(** *** What the rendered page and the event loop allow

    The two "Generate" buttons are [disabled={isGenerating}]; "Simulate
    Connect" is rendered for a session whose status is ["connecting"];
    "Delete Session" and the copy buttons are rendered per session.  A
    timer runs when it is due and no pending timer is due before it. *)

Definition offersCopy (text type : string) (session : SessionData) : bool :=
  match qrCode session with
  | Some q => negb (String.eqb q "") && String.eqb text q && String.eqb type "QR Code"
  | None => false
  end
  || match pairCode session with
     | Some p => negb (String.eqb p "") && String.eqb text p && String.eqb type "Pair Code"
     | None => false
     end.

Definition isConnecting (session : SessionData) : bool :=
  match status session with
  | connecting => true
  | _ => false
  end.

Definition runsBefore (ts : list Timer) (k : nat) (t : Timer) : bool :=
  forallb (fun j =>
             match nth_error ts j with
             | Some t' => (due t <? due t')%Z || ((due t =? due t')%Z && (k <=? j)%nat)
             | None => true
             end)
          (seq 0 (List.length ts)).

Definition enabled (w : World) (op : Op) : bool :=
  match op with
  | CreateQRSession | CreatePairSession => negb (isGenerating w)
  | SetPhoneNumber _ => true
  | SimulateConnection id =>
      existsb (fun session => hasId id session && isConnecting session) (sessions w)
  | DeleteSession id => existsb (hasId id) (sessions w)
  | CopyToClipboard text type => existsb (offersCopy text type) (sessions w)
  | Tick _ => true
  | Fire k =>
      match nth_error (timers w) k with
      | Some t => (due t <=? now w)%Z && runsBefore (timers w) k t
      | None => false
      end
  end.

(** Every operation of the run is allowed where it happens. *)
Fixpoint allEnabled (ops : list Op) (w : World) : bool :=
  match ops with
  | [] => true
  | op :: rest => enabled w op && allEnabled rest (perform op w)
  end.

(** ** Observations *)

(** The status of the session [id], when the list holds one. *)
Definition statusOf (id : string) (w : World) : option Status :=
  option_map status (find (hasId id) (sessions w)).

(** The toasts a computation adds to the log. *)
Definition emitted {A : Type} (m : M A) (w : World) : list Toast :=
  skipn (List.length (toasts w)) (toasts (exec m w)).

(** A toast that reports a failure: [variant: "destructive"]. *)
Definition isError (t : Toast) : bool :=
  match variant t with
  | Some v => String.eqb v "destructive"
  | None => false
  end.

End Handlers.

(** ** A concrete platform and concrete runs

    A platform on which every [Math.random()] returns one half, which
    [toString(36)] renders as ["0.i"], on which no time passes inside a
    handler, and whose clipboard takes every text. *)
Definition halfPlatform : Platform :=
  {| Math_random := fun _ => mkDouble 1 (-1);
     toString36 := fun _ => "0.i";
     Date_elapsed := fun _ => 0%N;
     navigator_clipboard := Some (fun _ => true) |}.

Definition scanId : string := "wa_session_1500_i".
Definition pairId : string := "wa_session_2000_i".

(** A scan session is created, connected while it is offered, and its
    timer runs thirty seconds after the creation. *)
Definition connectThenExpireQR : list Op :=
  [CreateQRSession; Tick 1500; Fire 0;
   SimulateConnection scanId; Tick 30000; Fire 0].

(** The same with a pairing session and its sixty seconds. *)
Definition connectThenExpirePair : list Op :=
  [SetPhoneNumber "+15551234567"; CreatePairSession; Tick 2000; Fire 0;
   SimulateConnection pairId; Tick 60000; Fire 0].


(** Two scan sessions are created one after the other; the second one
    is the record [secondScan]. *)
Definition createTwo : list Op :=
  [CreateQRSession; Tick 1500; Fire 0; CreateQRSession; Tick 1500; Fire 1].

Definition secondScan : SessionData :=
  mkSession "wa_session_3000_i" connecting (Some (btoa "2@i,i,3000")) None None 3000.


(** The world after a phone number has been typed. *)
Definition phoneTyped : World :=
  exec (setPhoneNumber "+15551234567") initialWorld.

(** Three sessions are created one after the other: a scan session, a
    pairing session and a scan session. *)
Definition createThree : list Op :=
  [CreateQRSession; Tick 1500; Fire 0;
   SetPhoneNumber "+15551234567"; CreatePairSession; Tick 2000; Fire 1;
   CreateQRSession; Tick 1500; Fire 2].

(** ** Predicates of the properties *)

Definition Status_eqb (a b : Status) : bool :=
  match a, b with
  | disconnected, disconnected | connecting, connecting | connected, connected => true
  | _, _ => false
  end.

(** A sequence of statuses without its immediate repetitions. *)
Fixpoint changes (l : list Status) : list Status :=
  match l with
  | [] => []
  | a :: rest =>
      match rest with
      | b :: _ => if Status_eqb a b then changes rest else a :: changes rest
      | [] => [a]
      end
  end.

(** The statuses a session goes through in a run, from the world where it
    first shows. *)
Definition observed {platform : Platform} (id : string) (ops : list Op) (w : World)
  : list Status :=
  changes (flat_map (fun w' => match statusOf id w' with
                               | Some s => [s]
                               | None => []
                               end)
                    (trace ops w)).

(** [xs] is a subsequence of [ys]. *)
Fixpoint subsequence (xs ys : list Status) : bool :=
  match ys with
  | [] => match xs with [] => true | _ => false end
  | y :: ys' =>
      match xs with
      | [] => true
      | x :: xs' => if Status_eqb x y then subsequence xs' ys' else subsequence xs ys'
      end
  end.

(** A character of the class [[A-Z0-9]]. *)
Definition isCodeChar (c : ascii) : bool :=
  let n := N_of_ascii c in
  ((65 <=? n) && (n <=? 90) || (48 <=? n) && (n <=? 57))%N.

(** The strings of [[A-Z0-9]{4}-[A-Z0-9]{4}]. *)
Definition matchesCodePattern (s : string) : bool :=
  match list_ascii_of_string s with
  | [a; b; c; d; h; e; f; g; i] =>
      forallb isCodeChar [a; b; c; d] && Ascii.eqb h "-" && forallb isCodeChar [e; f; g; i]
  | _ => false
  end.

(** A record holds a scannable code alone, or a pairing code with its
    phone number alone. *)
Definition exactlyOneVariant (session : SessionData) : bool :=
  match qrCode session, pairCode session, phoneNumber session with
  | Some _, None, None => true
  | None, Some _, Some _ => true
  | _, _, _ => false
  end.

(** The identifier of a record with its authentication artifact. *)
Definition artifactOf (session : SessionData)
  : string * (option string * option string * option string) :=
  (sessionId session, (qrCode session, pairCode session, phoneNumber session)).

Definition artifacts (w : World)
  : list (string * (option string * option string * option string)) :=
  map artifactOf (sessions w).

(** The callbacks that complete a creation. *)
Definition isCreation (cb : Callback) : bool :=
  match cb with
  | ResumeCreateQR | ResumeCreatePair _ => true
  | ConnectionTimeout _ => false
  end.

(** The record an operation creates: the [newSession] of the creation
    that the timer it runs resumes. *)
Definition addedBy {platform : Platform} (op : Op) (w : World) : list SessionData :=
  match op with
  | Fire k =>
      match nth_error (timers w) k with
      | Some t =>
          match callback t with
          | ResumeCreateQR =>
              [newQRSession (setTimers (removeNth k (timers w)) w)]
          | ResumeCreatePair phone =>
              [newPairSession phone (setTimers (removeNth k (timers w)) w)]
          | ConnectionTimeout _ => []
          end
      | None => []
      end
  | _ => []
  end.

(** The records a run creates, in the order of their creation. *)
Fixpoint createdBy {platform : Platform} (ops : list Op) (w : World)
  : list SessionData :=
  match ops with
  | [] => []
  | op :: rest => (addedBy op w ++ createdBy rest (perform op w))%list
  end.

Definition isDelete (op : Op) : bool :=
  match op with
  | DeleteSession _ => true
  | _ => false
  end.

(** A record as it was created, whatever its status has become. *)
Definition asCreated (session : SessionData) : SessionData :=
  withStatus connecting session.


(** ** Identifiers and creation times *)

(** The character [c] does not occur in [s]. *)
Definition freeOf (c : ascii) (s : string) : Prop :=
  ~ In c (list_ascii_of_string s).

(** The identifier [id] was generated when the clock read [t]: it is
    [`wa_session_${t}_${random}`] for some [random]. *)
Definition stamped (t : Z) (id : string) : Prop :=
  exists suffix : string, id = "wa_session_" ++ decimal t ++ "_" ++ suffix.

(** ** The state of an allowed run *)

(** A pending timer that resumes a creation after its [await]. *)
Definition isResume (t : Timer) : bool := isCreation (callback t).

(** The identifiers whose timeout is pending, in scheduling order. *)
Definition timeoutIds (ts : list Timer) : list string :=
  flat_map (fun t => match callback t with
                     | ConnectionTimeout id => [id]
                     | _ => []
                     end) ts.

(** The delay of the timeout a creation schedules: [30000] in
    [createQRSession], whose record has a [qrCode], [60000] in
    [createPairSession]. *)
Definition timeoutDelay (session : SessionData) : Z :=
  match qrCode session with
  | Some _ => 30000
  | None => 60000
  end.

(** [a] was created after [b]. *)
Definition newerThan (a b : SessionData) : Prop :=
  (createdAt b < createdAt a)%Z.

(** [a] was created, and its identifier generated, after [b] was created. *)
Definition createdAfter (a b : SessionData) : Prop :=
  newerThan a b
  /\ forall c : Z, stamped c (sessionId a) -> (createdAt b < c)%Z.

(** What holds of the worlds of a run whose operations are all allowed. *)
Record Coherent (w : World) : Prop := mkCoherent {
  coherent_ids :
    forall s, In s (sessions w) ->
              exists c, stamped c (sessionId s) /\ (c <= createdAt s)%Z;
  coherent_past :
    forall s, In s (sessions w) -> (createdAt s <= now w)%Z;
  coherent_order :
    StronglySorted createdAfter (sessions w);
  coherent_resume :
    forall r s, In r (timers w) -> isResume r = true -> In s (sessions w) ->
                (createdAt s < due r)%Z;
  coherent_busy :
    List.length (filter isResume (timers w))
    = if isGenerating w then 1%nat else 0%nat;
  coherent_timeouts :
    forall t id, In t (timers w) -> callback t = ConnectionTimeout id ->
      exists c, stamped c id /\ (c <= now w)%Z
                /\ forall r, In r (timers w) -> isResume r = true -> (c < due r)%Z;
  coherent_one_timeout :
    NoDup (timeoutIds (timers w));
  coherent_deadline :
    forall t id s, In t (timers w) -> callback t = ConnectionTimeout id ->
      In s (sessions w) -> sessionId s = id ->
      (createdAt s + timeoutDelay s <= due t)%Z;
  coherent_disconnected :
    forall s, In s (sessions w) -> status s = disconnected ->
              ~ In (sessionId s) (timeoutIds (timers w));
  coherent_not_early :
    forall s, In s (sessions w) -> status s = disconnected ->
              (createdAt s + timeoutDelay s <= now w)%Z
}.

(** The identifier [id] belongs to the past: no record carries it, it was
    generated at a clock reading that is over, and before the due time of
    every creation that is pending. *)
Definition Retired (id : string) (w : World) : Prop :=
  existsb (hasId id) (sessions w) = false
  /\ exists c : Z,
       stamped c id /\ (c <= now w)%Z
       /\ forall r, In r (timers w) -> isResume r = true -> (c < due r)%Z.

(** The changes of the observed status of an identifier that an allowed
    operation can make: an absent identifier stays absent or appears as
    connecting; a connecting session can take any status or be deleted; a
    connected one stays connected, becomes disconnected or is deleted; a
    disconnected one stays disconnected or is deleted. *)
Definition allowedTransition (before after : option Status) : bool :=
  match before, after with
  | None, None | None, Some connecting => true
  | Some connecting, _ => true
  | Some connected, Some connected | Some connected, Some disconnected
  | Some connected, None => true
  | Some disconnected, Some disconnected | Some disconnected, None => true
  | _, _ => false
  end.

(** How far a session is in its life: connecting, connected, disconnected,
    deleted. *)
Definition stage (observation : option Status) : nat :=
  match observation with
  | Some connecting => 0
  | Some connected => 1
  | Some disconnected => 2
  | None => 3
  end.

(** ** What the page shows of a record (lines 157-177 and 256-330) *)

(** A string used as a condition: [undefined] and the empty string are
    falsy. *)
Definition truthy (o : option string) : bool :=
  match o with
  | Some "" | None => false
  | Some _ => true
  end.

(** [{session.qrCode && (...)}], the "QR Code Data" block. *)
Definition showsQRCode (session : SessionData) : bool := truthy (qrCode session).

(** [{session.pairCode && (...)}], the "Pairing Code" block. *)
Definition showsPairCode (session : SessionData) : bool := truthy (pairCode session).

(** [{session.phoneNumber && ` • Phone: ${session.phoneNumber}`}] *)
Definition showsPhone (session : SessionData) : bool := truthy (phoneNumber session).

(** A record shows the scannable code alone, or the pairing code together
    with the phone number. *)
Definition showsOneArtifact (session : SessionData) : bool :=
  (showsQRCode session && negb (showsPairCode session) && negb (showsPhone session))
  || (negb (showsQRCode session) && showsPairCode session && showsPhone session).

Definition getStatusColor (s : Status) : string :=
  match s with
  | connected => "bg-green-500"
  | connecting => "bg-yellow-500"
  | disconnected => "bg-red-500"
  end.

(** The icon components of [getStatusIcon], each rendered with
    [className="h-4 w-4"]. *)
Inductive Icon : Type := Wifi | Smartphone | WifiOff.

Definition getStatusIcon (s : Status) : Icon :=
  match s with
  | connected => Wifi
  | connecting => Smartphone
  | disconnected => WifiOff
  end.

(** [variant={session.status === "connected" ? "default" : "secondary"}] *)
Definition badgeVariant (session : SessionData) : string :=
  match status session with
  | connected => "default"
  | _ => "secondary"
  end.

(** A character of a base64 text: a letter, a digit, [+], [/] or the
    padding [=]. *)
Definition isBase64Char (c : ascii) : bool :=
  let n := N_of_ascii c in
  ((65 <=? n) && (n <=? 90) || (97 <=? n) && (n <=? 122) || (48 <=? n) && (n <=? 57)
   || (n =? 43) || (n =? 47) || (n =? 61))%N.

(** ** More concrete runs *)

(** The first record of [createTwo]. *)
Definition firstScan : SessionData :=
  mkSession scanId connecting (Some (btoa "2@i,i,1500")) None None 1500.

(** One scan session is created. *)
Definition createOne : list Op := [CreateQRSession; Tick 1500; Fire 0].

(** One pairing session is created; its record is [pairRecord]. *)
Definition createPair : list Op :=
  [SetPhoneNumber "+15551234567"; CreatePairSession; Tick 2000; Fire 0].

Definition pairRecord : SessionData :=
  mkSession pairId connecting None (Some "SSSS-SSSS") (Some "+15551234567") 2000.

(** A platform on which one millisecond passes before every reading of
    the clock, and which has no clipboard. *)
Definition slowPlatform : Platform :=
  {| Math_random := fun _ => mkDouble 1 (-1);
     toString36 := fun _ => "0.i";
     Date_elapsed := fun _ => 1%N;
     navigator_clipboard := None |}.

(** The record of [createOne] on [slowPlatform]: the identifier is
    generated at 1502, the record is created at 1504. *)
Definition slowScan : SessionData :=
  mkSession "wa_session_1502_i" connecting (Some (btoa "2@i,i,1503")) None None 1504.

(** After [createOne], the session is deleted and another one is created. *)
Definition deleteThenCreate : list Op :=
  [CreateQRSession; Tick 1500; Fire 1].

(** * Properties *)

Section Properties.

Context {platform : Platform}.

(** ** What the generators and the callbacks do to the world *)

Lemma exec_generateSessionId (w : World) :
  exec generateSessionId w = setDraws (1 + draws w) (exec DateNow w).
Proof. reflexivity. Qed.

Lemma exec_generateQRCode (w : World) :
  exec generateQRCode w = exec DateNow (setDraws (2 + draws w) w).
Proof. reflexivity. Qed.

Lemma exec_pairCodeLoop (n : nat) :
  forall (result : string) (w : World),
    exec (pairCodeLoop n result) w = setDraws (n + draws w) w.
Proof.
  induction n as [|n IH]; intros result w.
  - destruct w; reflexivity.
  - change (exec (pairCodeLoop (S n) result) w)
      with (exec (pairCodeLoop n (result ++ pick (Math_random (draws w))))
                 (setDraws (S (draws w)) w)).
    rewrite IH. unfold setDraws; simpl. f_equal. lia.
Qed.

Lemma exec_generatePairCode (w : World) :
  exec generatePairCode w = setDraws (8 + draws w) w.
Proof.
  change (exec generatePairCode w) with (exec (pairCodeLoop 8 "") w).
  apply exec_pairCodeLoop.
Qed.

Lemma exec_bind {A B : Type} (m : M A) (k : A -> M B) (w : World) :
  exec (bind m k) w = exec (k (eval m w)) (exec m w).
Proof. reflexivity. Qed.

(** The worlds in which the records are built differ from the world of
    the resumption in the clock and in the counts of draws and readings
    only. *)
Lemma builtQR_frame (w : World) :
  builtQR w
  = mkWorld (sessions w) (phoneNumberInput w) (isGenerating w) (toasts w) (timers w)
            (createdAt (newQRSession w)) (3 + draws w) (3 + reads w) (clipboard w).
Proof.
  unfold builtQR, newQRSession. cbn [createdAt].
  rewrite exec_generateQRCode, exec_generateSessionId. reflexivity.
Qed.

Lemma builtPair_frame (phone : string) (w : World) :
  builtPair w
  = mkWorld (sessions w) (phoneNumberInput w) (isGenerating w) (toasts w) (timers w)
            (createdAt (newPairSession phone w)) (9 + draws w) (2 + reads w)
            (clipboard w).
Proof.
  unfold builtPair, newPairSession. cbn [createdAt].
  rewrite exec_generatePairCode, exec_generateSessionId. reflexivity.
Qed.

(** [resumeCreateQR], once its record is built. *)
Lemma exec_resumeCreateQR (w : World) :
  exec resumeCreateQR w
  = exec (setTimeout (ConnectionTimeout (sessionId (newQRSession w))) 30000)
         (exec (toast qrCreatedToast)
               (exec (setIsGenerating false)
                     (exec (setSessions (fun prev => newQRSession w :: prev))
                           (builtQR w)))).
Proof.
  unfold resumeCreateQR. rewrite !exec_bind. reflexivity.
Qed.

(** [resumeCreatePair], once its record is built. *)
Lemma exec_resumeCreatePair (phone : string) (w : World) :
  exec (resumeCreatePair phone) w
  = exec (setTimeout (ConnectionTimeout (sessionId (newPairSession phone w))) 60000)
         (exec (toast pairCreatedToast)
               (exec (setPhoneNumber "")
                     (exec (setIsGenerating false)
                           (exec (setSessions (fun prev => newPairSession phone w :: prev))
                                 (builtPair w))))).
Proof.
  unfold resumeCreatePair. rewrite !exec_bind. reflexivity.
Qed.

Lemma sessions_resumeCreateQR (w : World) :
  sessions (exec resumeCreateQR w) = newQRSession w :: sessions w.
Proof. rewrite exec_resumeCreateQR, builtQR_frame. reflexivity. Qed.

Lemma sessions_resumeCreatePair (phone : string) (w : World) :
  sessions (exec (resumeCreatePair phone) w) = newPairSession phone w :: sessions w.
Proof. rewrite exec_resumeCreatePair, (builtPair_frame phone). reflexivity. Qed.

Lemma markStatus_absent (id : string) (s : Status) (l : list SessionData) :
  existsb (hasId id) l = false -> markStatus id s l = l.
Proof.
  induction l as [|x l IH]; simpl; intros Hno; [reflexivity|].
  apply orb_false_elim in Hno as [Hx Hl].
  rewrite Hx, (IH Hl). reflexivity.
Qed.

Lemma filter_absent (id : string) (l : list SessionData) :
  existsb (hasId id) l = false ->
  filter (fun session => negb (hasId id session)) l = l.
Proof.
  induction l as [|x l IH]; simpl; intros Hno; [reflexivity|].
  apply orb_false_elim in Hno as [Hx Hl].
  rewrite Hx, (IH Hl). reflexivity.
Qed.

Lemma filter_removes (id : string) (l : list SessionData) :
  existsb (hasId id) (filter (fun session => negb (hasId id session)) l) = false.
Proof.
  induction l as [|x l IH]; simpl; [reflexivity|].
  destruct (hasId id x) eqn:Hx; simpl; [exact IH|].
  rewrite Hx, IH. reflexivity.
Qed.

Lemma emitted_toast (t : Toast) (w : World) (m : M unit) :
  toasts (exec m w) = (toasts w ++ [t])%list -> emitted m w = [t].
Proof.
  unfold emitted. intros ->.
  rewrite skipn_app, skipn_all, Nat.sub_diag. reflexivity.
Qed.

(** ** Validation of the phone number *)

(** C10: when [createPairSession] runs with an empty phone number it only
    shows the "Phone Number Required" toast: the session list, the pending
    timers, the number of random draws (no identifier and no code is
    generated), the busy flag, the input and the clock are what they were. *)
Theorem empty_phone_only_toasts (w : World) :
  phoneNumberInput w = "" ->
  exec createPairSession w = exec (toast phoneNumberRequired) w
  /\ sessions (exec createPairSession w) = sessions w
  /\ timers (exec createPairSession w) = timers w
  /\ draws (exec createPairSession w) = draws w
  /\ isGenerating (exec createPairSession w) = isGenerating w
  /\ phoneNumberInput (exec createPairSession w) = phoneNumberInput w
  /\ now (exec createPairSession w) = now w.
Proof.
  intros Hempty.
  assert (Hexec : exec createPairSession w = exec (toast phoneNumberRequired) w).
  { unfold exec, createPairSession. rewrite Hempty. reflexivity. }
  rewrite Hexec. repeat split.
Qed.

(** C5: with an empty phone number [createPairSession] reports the
    failure "Phone Number Required", adds no session and leaves no creation
    pending.  With a phone number [p] that is not empty it reports no
    failure and schedules the creation with [p]; whenever that timer runs,
    whatever was typed meanwhile, the page puts one new record at the head
    of the list, connecting, with a pairing code, no scannable code and
    exactly [p] as its phone number; so the click, any wait and the run of
    that timer give the list one such record more. *)
Theorem createPairSession_validates (w : World) :
  (phoneNumberInput w = "" ->
     emitted createPairSession w = [phoneNumberRequired]
     /\ isError phoneNumberRequired = true
     /\ sessions (perform CreatePairSession w) = sessions w
     /\ timers (perform CreatePairSession w) = timers w)
  /\ (phoneNumberInput w <> "" ->
        emitted createPairSession w = []
        /\ (exists d : Z,
              timers (perform CreatePairSession w)
              = (timers w ++ [mkTimer d (ResumeCreatePair (phoneNumberInput w))])%list)
        /\ (forall (w' : World) (k : nat) (d : Z),
              nth_error (timers w') k
              = Some (mkTimer d (ResumeCreatePair (phoneNumberInput w))) ->
              exists session : SessionData,
                sessions (perform (Fire k) w') = session :: sessions w'
                /\ phoneNumber session = Some (phoneNumberInput w)
                /\ pairCode session <> None
                /\ qrCode session = None
                /\ status session = connecting)
        /\ forall ms : N,
             exists session : SessionData,
               sessions (run [CreatePairSession; Tick ms; Fire (List.length (timers w))] w)
               = session :: sessions w
               /\ phoneNumber session = Some (phoneNumberInput w)
               /\ pairCode session <> None
               /\ qrCode session = None
               /\ status session = connecting).
Proof.
  assert (Hfire : forall (p : string) (w' : World) (k : nat) (d : Z),
             nth_error (timers w') k = Some (mkTimer d (ResumeCreatePair p)) ->
             exists session : SessionData,
               sessions (perform (Fire k) w') = session :: sessions w'
               /\ phoneNumber session = Some p
               /\ pairCode session <> None
               /\ qrCode session = None
               /\ status session = connecting).
  { intros p w' k d Hk. unfold perform, fire. rewrite Hk. cbn [callback runCallback].
    rewrite sessions_resumeCreatePair. eexists. split; [reflexivity|].
    repeat split. discriminate. }
  split.
  - intros Hempty.
    assert (Hexec : exec createPairSession w = exec (toast phoneNumberRequired) w).
    { unfold exec, createPairSession. rewrite Hempty. reflexivity. }
    unfold perform. repeat split.
    + apply emitted_toast. rewrite Hexec. reflexivity.
    + rewrite Hexec. reflexivity.
    + rewrite Hexec. reflexivity.
  - intros Hphone. apply String.eqb_neq in Hphone.
    assert (Hexec : exec createPairSession w
                    = exec (setIsGenerating true ;;
                            setTimeout (ResumeCreatePair (phoneNumberInput w)) 2000) w).
    { unfold exec, createPairSession. rewrite Hphone. reflexivity. }
    assert (Htimers : timers (perform CreatePairSession w)
                      = (timers w
                         ++ [mkTimer (now w + Z.of_N (Date_elapsed (reads w)) + 2000)
                                     (ResumeCreatePair (phoneNumberInput w))])%list).
    { unfold perform. rewrite Hexec. reflexivity. }
    split; [unfold emitted; rewrite Hexec; simpl; apply skipn_all|].
    split; [eexists; exact Htimers|].
    split; [intros w' k d Hk; exact (Hfire _ w' k d Hk)|].
    intros ms.
    change (run [CreatePairSession; Tick ms; Fire (List.length (timers w))] w)
      with (perform (Fire (List.length (timers w)))
                    (perform (Tick ms) (perform CreatePairSession w))).
    assert (Hsessions : sessions (perform (Tick ms) (perform CreatePairSession w))
                        = sessions w).
    { unfold perform. rewrite Hexec. reflexivity. }
    rewrite <- Hsessions. eapply Hfire.
    change (timers (perform (Tick ms) (perform CreatePairSession w)))
      with (timers (perform CreatePairSession w)).
    rewrite Htimers, nth_error_app2, Nat.sub_diag by apply Nat.le_refl. reflexivity.
Qed.

(** ** Operations on an identifier the list does not hold *)

(** C4, as the code has it: for an identifier that no record of the list
    carries, [simulateConnection] and [deleteSession] leave the list as it
    is and show their usual toast ("Connected!", "Session Deleted"), which
    is not a failure; a second [deleteSession] of an identifier does the
    same. *)
Theorem absent_id_succeeds_silently (id : string) (w : World) :
  (existsb (hasId id) (sessions w) = false ->
     sessions (exec (simulateConnection id) w) = sessions w
     /\ emitted (simulateConnection id) w = [connectedToast]
     /\ sessions (exec (deleteSession id) w) = sessions w
     /\ emitted (deleteSession id) w = [deletedToast])
  /\ sessions (exec (deleteSession id) (exec (deleteSession id) w))
     = sessions (exec (deleteSession id) w)
  /\ emitted (deleteSession id) (exec (deleteSession id) w) = [deletedToast]
  /\ isError connectedToast = false
  /\ isError deletedToast = false.
Proof.
  split; [intros Habsent; repeat split | repeat split].
  - simpl. apply markStatus_absent, Habsent.
  - apply emitted_toast. reflexivity.
  - simpl. apply filter_absent, Habsent.
  - apply emitted_toast. reflexivity.
  - simpl. apply filter_absent, filter_removes.
  - apply emitted_toast. reflexivity.
Qed.

(** ** Timers *)



(** ** The shape of every operation

    An operation leaves the list as it is, rewrites the status of the
    records of one identifier to ["connected"] or ["disconnected"], removes
    the records of one identifier, or puts one new connecting record at the
    head. *)

(** [copyToClipboard] touches the clipboard and the toast log only. *)
Lemma copyToClipboard_frame (text type : string) (w : World) :
  sessions (exec (copyToClipboard text type) w) = sessions w
  /\ timers (exec (copyToClipboard text type) w) = timers w
  /\ isGenerating (exec (copyToClipboard text type) w) = isGenerating w
  /\ now (exec (copyToClipboard text type) w) = now w.
Proof.
  unfold exec, copyToClipboard.
  destruct navigator_clipboard as [fulfilled|]; [destruct (fulfilled text)|];
    repeat split.
Qed.

Lemma sessions_perform (op : Op) (w : World) :
  sessions (perform op w) = sessions w
  \/ (exists (id : string) (s : Status),
        s <> connecting /\ sessions (perform op w) = markStatus id s (sessions w))
  \/ (exists id : string,
        op = DeleteSession id
        /\ sessions (perform op w)
           = filter (fun session => negb (hasId id session)) (sessions w))
  \/ (exists session : SessionData,
        sessions (perform op w) = session :: sessions w
        /\ exactlyOneVariant session = true
        /\ status session = connecting).
Proof.
  destruct op as [ | | value | id | id | text type | ms | k]; unfold perform.
  - left. reflexivity.
  - left. unfold exec, createPairSession.
    destruct (String.eqb (phoneNumberInput w) ""); reflexivity.
  - left. reflexivity.
  - right. left. exists id, connected. split; [discriminate | reflexivity].
  - right. right. left. exists id. split; reflexivity.
  - left. apply copyToClipboard_frame.
  - left. reflexivity.
  - unfold fire. destruct (nth_error (timers w) k) as [t|]; [|left; reflexivity].
    destruct (callback t) as [ | phone | id]; unfold runCallback.
    + right. right. right. rewrite sessions_resumeCreateQR.
      eexists. repeat split.
    + right. right. right. rewrite sessions_resumeCreatePair.
      eexists. repeat split.
    + right. left. exists id, disconnected. split; [discriminate | reflexivity].
Qed.

(** No operation sets a status back to ["connecting"]: a connecting
    record of the list after an operation was in the list before it, or is
    the record the operation has just created. *)
Lemma connecting_is_never_restored (op : Op) (w : World) (session : SessionData) :
  In session (sessions (perform op w)) ->
  status session = connecting ->
  In session (sessions w) \/ sessions (perform op w) = session :: sessions w.
Proof.
  intros Hin Hstatus.
  destruct (sessions_perform op w)
    as [Heq | [(id & s & Hs & Heq) | [(id & _ & Heq) | (new & Heq & _ & _)]]];
    rewrite Heq in Hin.
  - left. exact Hin.
  - left. unfold markStatus in Hin. apply in_map_iff in Hin as (old & Hold & Hin).
    destruct (hasId id old).
    + subst session. simpl in Hstatus. contradiction.
    + subst session. exact Hin.
  - left. apply filter_In in Hin. exact (proj1 Hin).
  - destruct Hin as [Hnew | Hin]; [right | left; exact Hin].
    rewrite Heq, Hnew. reflexivity.
Qed.

Lemma artifactOf_markStatus (id : string) (s : Status) (l : list SessionData) :
  map artifactOf (markStatus id s l) = map artifactOf l.
Proof.
  unfold markStatus. rewrite map_map. apply map_ext.
  intros session. destruct (hasId id session); reflexivity.
Qed.

Lemma artifactOf_filter (id : string) (l : list SessionData) :
  map artifactOf (filter (fun session => negb (hasId id session)) l)
  = filter (fun a => negb (String.eqb (fst a) id)) (map artifactOf l).
Proof.
  induction l as [|x l IH]; simpl; [reflexivity|].
  unfold hasId at 1. destruct (String.eqb (sessionId x) id); simpl.
  - exact IH.
  - rewrite IH. reflexivity.
Qed.

Lemma exactlyOneVariant_markStatus (id : string) (s : Status) (l : list SessionData) :
  forallb exactlyOneVariant (markStatus id s l) = forallb exactlyOneVariant l.
Proof.
  induction l as [|x l IH]; simpl; [reflexivity|].
  rewrite IH. destruct (hasId id x); reflexivity.
Qed.

Lemma exactlyOneVariant_filter (p : SessionData -> bool) (l : list SessionData) :
  forallb exactlyOneVariant l = true ->
  forallb exactlyOneVariant (filter p l) = true.
Proof.
  induction l as [|x l IH]; simpl; [reflexivity|].
  intros Hall. apply andb_true_iff in Hall as [Hx Hl].
  destruct (p x); simpl; [rewrite Hx|]; auto.
Qed.

Lemma exactlyOneVariant_perform (op : Op) (w : World) :
  forallb exactlyOneVariant (sessions w) = true ->
  forallb exactlyOneVariant (sessions (perform op w)) = true.
Proof.
  intros Hall.
  destruct (sessions_perform op w)
    as [-> | [(id & s & _ & ->) | [(id & _ & ->) | (session & -> & Hone & _)]]].
  - exact Hall.
  - rewrite exactlyOneVariant_markStatus. exact Hall.
  - apply exactlyOneVariant_filter, Hall.
  - simpl. rewrite Hone. exact Hall.
Qed.

Lemma run_cons (op : Op) (ops : list Op) (w : World) :
  run (op :: ops) w = run ops (perform op w).
Proof. reflexivity. Qed.

Lemma run_app (ops ops' : list Op) (w : World) :
  run (ops ++ ops') w = run ops' (run ops w).
Proof. apply fold_left_app. Qed.

Lemma exactlyOneVariant_run (ops : list Op) :
  forall w : World,
    forallb exactlyOneVariant (sessions w) = true ->
    forallb exactlyOneVariant (sessions (run ops w)) = true.
Proof.
  induction ops as [|op ops IH]; intros w Hall; [exact Hall|].
  rewrite run_cons. apply IH, exactlyOneVariant_perform, Hall.
Qed.

(** ** The authentication artifact *)

(** C8: in every world reached from the initial one, every record holds
    exactly one artifact, a scannable code alone or a pairing code with its
    phone number; and an operation leaves the identifiers with their
    artifacts as they are, or removes those of the deleted identifier, or
    puts one new record with exactly one artifact at the head: no artifact
    of a record changes after its creation. *)
Theorem artifact_fixed_at_creation :
  (forall ops : list Op,
     forallb exactlyOneVariant (sessions (run ops initialWorld)) = true)
  /\ forall (op : Op) (w : World),
       artifacts (perform op w) = artifacts w
       \/ (exists id : string,
             op = DeleteSession id
             /\ artifacts (perform op w)
                = filter (fun a => negb (String.eqb (fst a) id)) (artifacts w))
       \/ (exists session : SessionData,
             artifacts (perform op w) = artifactOf session :: artifacts w
             /\ exactlyOneVariant session = true).
Proof.
  split.
  - intros ops. apply exactlyOneVariant_run. reflexivity.
  - intros op w. unfold artifacts.
    destruct (sessions_perform op w)
      as [-> | [(id & s & _ & ->) | [(id & Hop & ->) | (session & -> & Hone & _)]]].
    + left. reflexivity.
    + left. apply artifactOf_markStatus.
    + right. left. exists id. split; [exact Hop | apply artifactOf_filter].
    + right. right. exists session. split; [reflexivity | exact Hone].
Qed.

(** ** Listing order *)

Lemma asCreated_markStatus (id : string) (st : Status) (l : list SessionData) :
  map asCreated (markStatus id st l) = map asCreated l.
Proof.
  unfold markStatus. rewrite map_map. apply map_ext.
  intros session. destruct (hasId id session); reflexivity.
Qed.

(** An operation that is not a deletion keeps the records of the list in
    their order and puts the record it creates before them. *)
Lemma asCreated_perform (op : Op) (w : World) :
  isDelete op = false ->
  map asCreated (sessions (perform op w))
  = (addedBy op w ++ map asCreated (sessions w))%list.
Proof.
  intros Hop.
  destruct op as [ | | value | id | id | text type | ms | k];
    try discriminate Hop; unfold perform, addedBy.
  - reflexivity.
  - unfold exec, createPairSession.
    destruct (String.eqb (phoneNumberInput w) ""); reflexivity.
  - reflexivity.
  - apply asCreated_markStatus.
  - rewrite (proj1 (copyToClipboard_frame text type w)). reflexivity.
  - reflexivity.
  - unfold fire. destruct (nth_error (timers w) k) as [t|]; [|reflexivity].
    destruct (callback t) as [ | phone | id]; unfold runCallback.
    + rewrite sessions_resumeCreateQR. reflexivity.
    + rewrite sessions_resumeCreatePair. reflexivity.
    + apply asCreated_markStatus.
Qed.

Lemma addedBy_rev (op : Op) (w : World) : rev (addedBy op w) = addedBy op w.
Proof.
  unfold addedBy. destruct op; try reflexivity.
  destruct (nth_error (timers w) k) as [t|]; [|reflexivity].
  destruct (callback t); reflexivity.
Qed.

(** C7: in every run of the page without a deletion, from any state, the
    list holds the records the run has created, the most recently created
    first, before the records it held at the start, each as it was created
    but for its status: after the creations of A, B and C it is C, B, A. *)
Theorem creations_newest_first (ops : list Op) :
  forall w : World,
    forallb (fun op => negb (isDelete op)) ops = true ->
    map asCreated (sessions (run ops w))
    = (rev (createdBy ops w) ++ map asCreated (sessions w))%list.
Proof.
  induction ops as [|op ops IH]; intros w Hkeep; [reflexivity|].
  cbn [forallb] in Hkeep. apply andb_true_iff in Hkeep as [Hop Hops].
  apply negb_true_iff in Hop.
  rewrite run_cons, (IH _ Hops), (asCreated_perform op w Hop).
  cbn [createdBy]. rewrite rev_app_distr, addedBy_rev, <- app_assoc. reflexivity.
Qed.

(** ** The pairing code *)

Lemma charAt_chars_table :
  forallb (fun n => match charAt chars (Z.of_nat n) with
                    | String c "" => isCodeChar c
                    | _ => false
                    end)
          (seq 0 36) = true.
Proof. vm_compute. reflexivity. Qed.

Lemma charAt_chars (i : Z) :
  (0 <= i < 36)%Z ->
  exists c : ascii, charAt chars i = String c "" /\ isCodeChar c = true.
Proof.
  intros Hi.
  pose proof charAt_chars_table as Htable.
  rewrite forallb_forall in Htable.
  specialize (Htable (Z.to_nat i)).
  rewrite Z2Nat.id in Htable by lia.
  assert (Hin : In (Z.to_nat i) (seq 0 36)) by (apply in_seq; lia).
  specialize (Htable Hin).
  destruct (charAt chars i) as [|c [|c' rest]]; try discriminate Htable.
  exists c. split; [reflexivity | exact Htable].
Qed.

Lemma roundShift_bounds (n s : Z) :
  (0 <= n)%Z -> (0 < s)%Z ->
  (n / 2 ^ s <= roundShift n s <= n / 2 ^ s + 1)%Z
  /\ (roundShift n s * 2 ^ s <= n + 2 ^ (s - 1))%Z.
Proof.
  intros Hn Hs. unfold roundShift.
  assert (Hpow : (2 ^ s = 2 * 2 ^ (s - 1))%Z).
  { rewrite <- Z.pow_succ_r by lia. f_equal. lia. }
  assert (Hhalf : (0 < 2 ^ (s - 1))%Z) by (apply Z.pow_pos_nonneg; lia).
  pose proof (Z.div_mod n (2 ^ s)) as Hdiv.
  pose proof (Z.mod_pos_bound n (2 ^ s)) as Hmod.
  set (q := (n / 2 ^ s)%Z) in *. set (r := (n mod 2 ^ s)%Z) in *.
  set (half := (2 ^ (s - 1))%Z) in *.
  assert (Hn' : (n = 2 * half * q + r)%Z) by (rewrite <- Hpow; apply Hdiv; lia).
  assert (Hr : (0 <= r < 2 * half)%Z) by (rewrite <- Hpow; apply Hmod; lia).
  rewrite Hpow.
  destruct (Z.ltb_spec r half) as [Hlow | Hhigh].
  - split; [lia | nia].
  - destruct (Z.ltb_spec half r) as [Habove | Htie].
    + split; [lia | nia].
    + destruct (Z.even q); split; try lia; nia.
Qed.

Lemma bitLength_spec (n : Z) :
  (0 <= n)%Z -> (0 <= bitLength n)%Z /\ (n < 2 ^ bitLength n)%Z
  /\ (0 < bitLength n -> 2 ^ (bitLength n - 1) <= n)%Z.
Proof.
  intros Hn. unfold bitLength. destruct (Z.eqb_spec n 0) as [-> | Hpos].
  - repeat split; lia.
  - pose proof (Z.log2_spec n) as Hlog. pose proof (Z.log2_nonneg n).
    replace (Z.log2 n + 1 - 1)%Z with (Z.log2 n) by lia.
    replace (Z.log2 n + 1)%Z with (Z.succ (Z.log2 n)) by lia.
    repeat split; try lia; intros _; apply Hlog; lia.
Qed.

(** The product of a double of [0, 1) with 36, rounded, is below 36. *)
Lemma floor_in_range (r : Double) :
  unitInterval r ->
  exists product : Double,
    Double_mul r (mkDouble 36 0) = Some product
    /\ (0 <= Math_floor product < 36)%Z.
Proof.
  intros ([Hm0 Hm53] & [Hemin Hemax] & Hone).
  unfold Double_mul, roundDouble. cbn [mantissa exponent].
  set (m := mantissa r) in *. set (e := exponent r) in *.
  set (n := (m * 36)%Z).
  assert (Hn36 : (n = m * 36)%Z) by reflexivity.
  assert (Hn : (0 <= n)%Z) by lia.
  assert (Hp53 : (0 < 2 ^ 53)%Z) by reflexivity.
  assert (Hp47 : (0 < 2 ^ 47)%Z) by reflexivity.
  destruct (bitLength_spec n Hn) as (Hb0 & Hbhigh & Hblow).
  assert (Hb59 : (bitLength n <= 59)%Z).
  { destruct (Z.le_gt_cases (bitLength n) 59) as [Hle | Hgt]; [exact Hle | exfalso].
    assert (Hbig : (2 ^ 59 <= 2 ^ (bitLength n - 1))%Z)
      by (apply Z.pow_le_mono_r; lia).
    specialize (Hblow ltac:(lia)).
    assert (H59 : (2 ^ 59 = 64 * 2 ^ 53)%Z) by reflexivity.
    lia. }
  assert (Hmax : (Z.max (bitLength n - 53) (-1074 - (e + 0)) <= 0
                  \/ (0 < bitLength n - 53
                      /\ Z.max (bitLength n - 53) (-1074 - (e + 0)) = bitLength n - 53))%Z)
    by lia.
  destruct (Z.leb_spec (Z.max (bitLength n - 53) (-1074 - (e + 0))) 0)
    as [Hexact | Hround]; cbn [mantissa exponent];
    [|destruct Hmax as [Hle | [Hround' Hmax]]; [lia | rewrite Hmax; clear Hround Hmax]].
  - (* the product is a double *)
    assert (Hfits : (1024 <? bitLength n + (e + 0))%Z = false).
    { apply Z.ltb_ge. destruct Hone as [Hzero | [Hneg _]]; [|lia].
      assert (Hzero' : n = 0%Z) by lia. rewrite Hzero'. cbn. lia. }
    rewrite Hfits. eexists. split; [reflexivity|].
    unfold Math_floor. cbn [mantissa exponent].
    destruct (Z.leb_spec 0 (e + 0)) as [Hpos | Hneg].
    + destruct Hone as [Hzero | [Hneg _]]; [|lia].
      assert (Hzero' : n = 0%Z) by lia. rewrite Hzero'. cbn. lia.
    + destruct Hone as [Hzero | [_ Hbelow]].
      * assert (Hzero' : n = 0%Z) by lia. rewrite Hzero'.
        rewrite Z.div_0_l; [lia|]. apply Z.pow_nonzero; lia.
      * assert (Hpow : (0 < 2 ^ (- (e + 0)))%Z) by (apply Z.pow_pos_nonneg; lia).
        replace (- (e + 0))%Z with (- e)%Z in * by lia.
        split; [apply Z.div_pos; lia|].
        apply Z.div_lt_upper_bound; [lia|]. lia.
  - (* the product is rounded to 53 digits *)
    set (s := (bitLength n - 53)%Z) in *.
    assert (Hround : (0 < s)%Z) by exact Hround'.
    specialize (Hblow ltac:(lia)).
    assert (H53 : (2 ^ 53 <= n)%Z).
    { apply Z.le_trans with (2 ^ (bitLength n - 1))%Z; [|exact Hblow].
      apply Z.pow_le_mono_r; lia. }
    destruct Hone as [Hzero | [Hneg Hbelow]]; [lia|].
    destruct (roundShift_bounds n s Hn Hround) as [[Hq Hq1] Hclose].
    assert (Hpows : (0 < 2 ^ s)%Z) by (apply Z.pow_pos_nonneg; lia).
    assert (Hquot : (n / 2 ^ s < 2 ^ 53)%Z).
    { apply Z.div_lt_upper_bound; [lia|]. rewrite <- Z.pow_add_r by lia.
      replace (s + 53)%Z with (bitLength n) by (unfold s; lia). exact Hbhigh. }
    assert (Hquot0 : (0 <= n / 2 ^ s)%Z) by (apply Z.div_pos; lia).
    assert (He : (e < -47)%Z).
    { destruct (Z.lt_ge_cases e (-47)) as [Hlt | Hge]; [exact Hlt | exfalso].
      assert (Hsmall : (2 ^ (- e) <= 2 ^ 47)%Z) by (apply Z.pow_le_mono_r; lia).
      assert (H47 : (2 ^ 53 = 64 * 2 ^ 47)%Z) by reflexivity.
      lia. }
    assert (Hbits : (bitLength (roundShift n s) <= 54)%Z).
    { destruct (bitLength_spec (roundShift n s) ltac:(lia)) as (_ & _ & Hlow').
      destruct (Z.le_gt_cases (bitLength (roundShift n s)) 54) as [Hle | Hgt];
        [exact Hle | exfalso].
      specialize (Hlow' ltac:(lia)).
      assert (Hbig : (2 ^ 54 <= 2 ^ (bitLength (roundShift n s) - 1))%Z)
        by (apply Z.pow_le_mono_r; lia).
      assert (H54 : (2 ^ 54 = 2 * 2 ^ 53)%Z) by reflexivity. lia. }
    assert (Hfits : (1024 <? bitLength (roundShift n s) + (e + 0 + s))%Z = false)
      by (apply Z.ltb_ge; lia).
    rewrite Hfits. eexists. split; [reflexivity|].
    unfold Math_floor. cbn [mantissa exponent].
    destruct (Z.leb_spec 0 (e + 0 + s)) as [Hpos | Hneg']; [lia|].
    replace (- (e + 0 + s))%Z with (- e - s)%Z by lia.
    assert (Hp : (0 < 2 ^ (- e - s))%Z) by (apply Z.pow_pos_nonneg; lia).
    assert (Hsplit : (2 ^ (- e) = 2 ^ (- e - s) * 2 ^ s)%Z).
    { rewrite <- Z.pow_add_r by lia. f_equal. lia. }
    assert (Hhalf : (2 ^ (s - 1) <= 2 ^ 5)%Z) by (apply Z.pow_le_mono_r; lia).
    split; [apply Z.div_pos; lia|].
    apply Z.div_lt_upper_bound; [lia|].
    destruct (Z.lt_ge_cases (roundShift n s) (2 ^ (- e - s) * 36)) as [Hlt | Hge];
      [exact Hlt | exfalso].
    assert (Hmul : (2 ^ (- e - s) * 36 * 2 ^ s <= roundShift n s * 2 ^ s)%Z)
      by (apply Z.mul_le_mono_nonneg_r; lia).
    assert (H32 : (2 ^ 5 = 32)%Z) by reflexivity.
    nia.
Qed.

Lemma pick_codeChar (r : Double) :
  unitInterval r ->
  exists c : ascii, pick r = String c "" /\ isCodeChar c = true.
Proof.
  intros Hr. unfold pick.
  change (Double_ofNat (String.length chars)) with (mkDouble 36 0).
  destruct (floor_in_range r Hr) as (product & -> & Hrange).
  apply charAt_chars, Hrange.
Qed.

Lemma append_empty_r (s : string) : s ++ "" = s.
Proof. induction s as [|a s IH]; simpl; [reflexivity | rewrite IH; reflexivity]. Qed.

(** The loop appends one character of [[A-Z0-9]] per iteration. *)
Lemma pairCodeLoop_appends (n : nat) :
  (forall k : nat, unitInterval (Math_random k)) ->
  forall (result : string) (w : World),
  exists cs : list ascii,
    List.length cs = n
    /\ forallb isCodeChar cs = true
    /\ eval (pairCodeLoop n result) w = result ++ string_of_list_ascii cs.
Proof.
  intros Hrandom. induction n as [|n IH]; intros result w.
  - exists []. repeat split. simpl. symmetry. apply append_empty_r.
  - change (eval (pairCodeLoop (S n) result) w)
      with (eval (pairCodeLoop n (result ++ pick (Math_random (draws w))))
                 (setDraws (S (draws w)) w)).
    destruct (pick_codeChar _ (Hrandom (draws w))) as (c & -> & Hc).
    destruct (IH (result ++ String c "") (setDraws (S (draws w)) w))
      as (cs & Hlen & Hall & ->).
    exists (c :: cs). repeat split.
    + simpl. rewrite Hlen. reflexivity.
    + simpl. rewrite Hc, Hall. reflexivity.
    + simpl. clear. induction result as [|a result IHr]; simpl;
        [reflexivity | rewrite IHr; reflexivity].
Qed.

Lemma codeChar_not_terminator (c : ascii) :
  isCodeChar c = true -> isLineTerminator c = false.
Proof.
  unfold isCodeChar, isLineTerminator. intros Hc.
  apply orb_false_intro; apply N.eqb_neq; intros Heq; rewrite Heq in Hc;
    discriminate Hc.
Qed.

(** C6: when every [Math.random()] returns a double of [0, 1),
    [generatePairCode] returns a string of the pattern
    [[A-Z0-9]{4}-[A-Z0-9]{4}]: four characters of A-Z and 0-9, a hyphen,
    four characters of A-Z and 0-9.  The index of each character is the
    floor of the product of doubles [Math.random() * chars.length], which
    rounding keeps below 36. *)
Theorem generatePairCode_pattern (w : World) :
  (forall k : nat, unitInterval (Math_random k)) ->
  matchesCodePattern (eval generatePairCode w) = true.
Proof.
  intros Hrandom.
  change (eval generatePairCode w)
    with (orElse (option_map (join "-") (match_1_4 (eval (pairCodeLoop 8 "") w)))
                 (eval (pairCodeLoop 8 "") w)).
  destruct (pairCodeLoop_appends 8 Hrandom "" w) as (cs & Hlen & Hall & ->).
  destruct cs as [|c1 [|c2 [|c3 [|c4 [|c5 [|c6 [|c7 [|c8 [|c9 cs]]]]]]]]];
    try discriminate Hlen.
  simpl in Hall.
  repeat (apply andb_true_iff in Hall as [?Hc Hall]).
  pose proof (codeChar_not_terminator c1 Hc) as Ht1.
  pose proof (codeChar_not_terminator c2 Hc0) as Ht2.
  pose proof (codeChar_not_terminator c3 Hc1) as Ht3.
  pose proof (codeChar_not_terminator c4 Hc2) as Ht4.
  pose proof (codeChar_not_terminator c5 Hc3) as Ht5.
  pose proof (codeChar_not_terminator c6 Hc4) as Ht6.
  pose proof (codeChar_not_terminator c7 Hc5) as Ht7.
  pose proof (codeChar_not_terminator c8 Hc6) as Ht8.
  unfold match_1_4. simpl.
  rewrite Ht1, Ht2, Ht3, Ht4, Ht5, Ht6, Ht7, Ht8. simpl.
  unfold matchesCodePattern. simpl.
  rewrite Hc, Hc0, Hc1, Hc2, Hc3, Hc4, Hc5, Hc6. reflexivity.
Qed.

End Properties.

(** ** The timeout of a session that has connected *)

(** C1, at the failing input: the timeout callback rewrites every record
    of its identifier to ["disconnected"] whatever its status; so in the
    run that creates a scan session, connects it while it is offered and
    lets its timer run thirty seconds after the creation, every operation
    is allowed where it happens and the session, connected when the timer
    runs, ends disconnected; the same holds of a pairing session and its
    sixty seconds. *)
Theorem timeout_disconnects_connected :
  (forall (id : string) (w : World) (session : SessionData),
     In session (sessions (exec (connectionTimeout id) w)) ->
     sessionId session = id -> status session = disconnected)
  /\ allEnabled (platform := halfPlatform) connectThenExpireQR initialWorld = true
  /\ map (statusOf scanId) (trace (platform := halfPlatform) connectThenExpireQR initialWorld)
     = [None; None; None; Some connecting; Some connected; Some connected;
        Some disconnected]
  /\ allEnabled (platform := halfPlatform) connectThenExpirePair initialWorld = true
  /\ map (statusOf pairId) (trace (platform := halfPlatform) connectThenExpirePair initialWorld)
     = [None; None; None; None; Some connecting; Some connected; Some connected;
        Some disconnected].
Proof.
  split.
  - intros id w session Hin Hid. simpl in Hin. unfold markStatus in Hin.
    apply in_map_iff in Hin as (old & Hold & _).
    destruct (hasId id old) eqn:Hhas.
    + subst session. reflexivity.
    + subst session. unfold hasId in Hhas. rewrite Hid, String.eqb_refl in Hhas.
      discriminate Hhas.
  - repeat split; vm_compute; reflexivity.
Qed.

(** C2, at the failing input: in the run that creates a scan session,
    connects it and lets its timer run, the statuses observed of the
    session are connecting, connected, disconnected, which is a subsequence
    neither of connecting, connected nor of connecting, disconnected. *)
Theorem observed_connected_then_disconnected :
  allEnabled (platform := halfPlatform) connectThenExpireQR initialWorld = true
  /\ observed (platform := halfPlatform) scanId connectThenExpireQR initialWorld
     = [connecting; connected; disconnected]
  /\ subsequence [connecting; connected; disconnected] [connecting; connected] = false
  /\ subsequence [connecting; connected; disconnected] [connecting; disconnected] = false.
Proof. repeat split; vm_compute; reflexivity. Qed.

(** ** The model on concrete inputs *)

Example btoa_payload : btoa "2@i,i,1500" = "MkBpLGksMTUwMA==".
Proof. reflexivity. Qed.

(** The double nearest to 1/36: its exact product with 36 is below 1,
    the product of the doubles is 1. *)
Example pick_nearest_36th :
  unitInterval (mkDouble 2001599834386887 (-56))
  /\ (2001599834386887 * 36 < 2 ^ 56)%Z
  /\ pick (mkDouble 2001599834386887 (-56)) = "B".
Proof.
  split; [|split; [reflexivity | vm_compute; reflexivity]].
  unfold unitInterval. cbn [mantissa exponent].
  split; [split; [discriminate | reflexivity]|].
  split; [split; discriminate|].
  right. split; reflexivity.
Qed.

Example match_1_4_eight : match_1_4 "ABCD1234" = Some ["ABCD"; "1234"].
Proof. reflexivity. Qed.

Example generatePairCode_half :
  eval (generatePairCode (platform := halfPlatform)) initialWorld = "SSSS-SSSS".
Proof. vm_compute. reflexivity. Qed.

Example generateSessionId_half :
  eval (generateSessionId (platform := halfPlatform)) (setNow 1500 initialWorld)
  = scanId.
Proof. vm_compute. reflexivity. Qed.

Example timeout_of_unconfirmed :
  statusOf scanId
           (run (platform := halfPlatform)
                [CreateQRSession; Tick 1500; Fire 0; Tick 30000; Fire 0] initialWorld)
  = Some disconnected.
Proof. vm_compute. reflexivity. Qed.

(** ** Counterexamples *)


(** C4 fails as stated: on the initial world, which holds no session,
    [simulateConnection] and [deleteSession] of an identifier show
    "Connected!" and "Session Deleted" and no failure, also when the
    deletion is repeated. *)
Lemma absent_id_reports_no_error :
  existsb (hasId "wa_session_0_x") (sessions initialWorld) = false
  /\ emitted (simulateConnection "wa_session_0_x") initialWorld = [connectedToast]
  /\ existsb isError (emitted (simulateConnection "wa_session_0_x") initialWorld) = false
  /\ emitted (deleteSession "wa_session_0_x") initialWorld = [deletedToast]
  /\ existsb isError (emitted (deleteSession "wa_session_0_x") initialWorld) = false
  /\ existsb isError (emitted (deleteSession "wa_session_0_x")
                              (exec (deleteSession "wa_session_0_x") initialWorld))
     = false.
Proof. repeat split. Qed.

(** ** Instances of the theorems *)

Lemma halfPlatform_unitInterval :
  forall k : nat, unitInterval (Math_random (Platform := halfPlatform) k).
Proof.
  intros k. unfold unitInterval. cbn [Math_random halfPlatform mantissa exponent].
  split; [split; [discriminate | reflexivity]|].
  split; [split; discriminate|].
  right. split; reflexivity.
Qed.

Lemma empty_phone_only_toasts_witness :
  phoneNumberInput initialWorld = ""
  /\ exec (createPairSession (platform := halfPlatform)) initialWorld
     = exec (toast phoneNumberRequired) initialWorld
  /\ sessions (exec (createPairSession (platform := halfPlatform)) initialWorld)
     = sessions initialWorld
  /\ timers (exec (createPairSession (platform := halfPlatform)) initialWorld)
     = timers initialWorld
  /\ draws (exec (createPairSession (platform := halfPlatform)) initialWorld)
     = draws initialWorld
  /\ isGenerating (exec (createPairSession (platform := halfPlatform)) initialWorld)
     = isGenerating initialWorld
  /\ phoneNumberInput (exec (createPairSession (platform := halfPlatform)) initialWorld)
     = phoneNumberInput initialWorld
  /\ now (exec (createPairSession (platform := halfPlatform)) initialWorld)
     = now initialWorld.
Proof.
  split; [reflexivity|].
  apply (empty_phone_only_toasts (platform := halfPlatform) initialWorld). reflexivity.
Defined.

Lemma createPairSession_validates_witness :
  (phoneNumberInput initialWorld = ""
   /\ emitted (createPairSession (platform := halfPlatform)) initialWorld
      = [phoneNumberRequired]
   /\ isError phoneNumberRequired = true
   /\ sessions (perform (platform := halfPlatform) CreatePairSession initialWorld)
      = sessions initialWorld
   /\ timers (perform (platform := halfPlatform) CreatePairSession initialWorld)
      = timers initialWorld)
  /\ (phoneNumberInput phoneTyped <> ""
      /\ allEnabled (platform := halfPlatform)
                    [CreatePairSession; Tick 2000; Fire 0] phoneTyped = true
      /\ map phoneNumber
             (sessions (run (platform := halfPlatform)
                            [CreatePairSession; Tick 2000; Fire 0] phoneTyped))
         = [Some "+15551234567"]
      /\ exists session : SessionData,
           sessions (run (platform := halfPlatform)
                         [CreatePairSession; Tick 2000;
                          Fire (List.length (timers phoneTyped))] phoneTyped)
           = session :: sessions phoneTyped
           /\ phoneNumber session = Some (phoneNumberInput phoneTyped)
           /\ pairCode session <> None
           /\ qrCode session = None
           /\ status session = connecting).
Proof.
  split.
  - split; [reflexivity|].
    apply (createPairSession_validates (platform := halfPlatform) initialWorld).
    reflexivity.
  - assert (Hphone : phoneNumberInput phoneTyped <> "") by discriminate.
    split; [exact Hphone|].
    split; [vm_compute; reflexivity|]. split; [vm_compute; reflexivity|].
    destruct (proj2 (createPairSession_validates (platform := halfPlatform) phoneTyped)
                    Hphone) as (_ & _ & _ & Hrun).
    exact (Hrun 2000%N).
Defined.

Lemma absent_id_succeeds_silently_witness :
  existsb (hasId "wa_session_0_x") (sessions initialWorld) = false
  /\ sessions (exec (simulateConnection "wa_session_0_x") initialWorld)
     = sessions initialWorld
  /\ emitted (simulateConnection "wa_session_0_x") initialWorld = [connectedToast]
  /\ sessions (exec (deleteSession "wa_session_0_x") initialWorld)
     = sessions initialWorld
  /\ emitted (deleteSession "wa_session_0_x") initialWorld = [deletedToast].
Proof.
  split; [reflexivity|].
  apply (absent_id_succeeds_silently "wa_session_0_x" initialWorld). reflexivity.
Defined.



Lemma generatePairCode_pattern_witness :
  (forall k : nat, unitInterval (Math_random (Platform := halfPlatform) k))
  /\ matchesCodePattern (eval (generatePairCode (platform := halfPlatform)) initialWorld)
     = true.
Proof.
  split; [exact halfPlatform_unitInterval|].
  exact (generatePairCode_pattern (platform := halfPlatform) initialWorld
                                  halfPlatform_unitInterval).
Defined.

Lemma creations_newest_first_witness :
  forallb (fun op => negb (isDelete op)) createThree = true
  /\ allEnabled (platform := halfPlatform) createThree initialWorld = true
  /\ map sessionId (createdBy (platform := halfPlatform) createThree initialWorld)
     = ["wa_session_1500_i"; "wa_session_3500_i"; "wa_session_5000_i"]
  /\ map sessionId (sessions (run (platform := halfPlatform) createThree initialWorld))
     = ["wa_session_5000_i"; "wa_session_3500_i"; "wa_session_1500_i"]
  /\ map asCreated (sessions (run (platform := halfPlatform) createThree initialWorld))
     = (rev (createdBy (platform := halfPlatform) createThree initialWorld)
        ++ map asCreated (sessions initialWorld))%list.
Proof.
  split; [reflexivity|]. split; [vm_compute; reflexivity|].
  split; [vm_compute; reflexivity|]. split; [vm_compute; reflexivity|].
  apply (creations_newest_first (platform := halfPlatform) createThree initialWorld).
  reflexivity.
Defined.

(** * Further properties of the code *)

(** ** Identifiers *)

Lemma string_of_uint_digits (d : Decimal.uint) :
  freeOf "_" (NilEmpty.string_of_uint d).
Proof.
  unfold freeOf.
  induction d; simpl; intros Hin; try (destruct Hin as [Hin | Hin]; [discriminate Hin | auto]).
  exact Hin.
Qed.

Lemma decimal_freeOf_underscore (n : Z) : freeOf "_" (decimal n).
Proof.
  unfold decimal, NilZero.string_of_int, NilZero.string_of_uint, freeOf.
  destruct (Z.to_int n) as [d | d].
  - destruct d; try apply string_of_uint_digits.
    simpl. intros [Hin | []]. discriminate Hin.
  - simpl. intros [Hin | Hin]; [discriminate Hin|].
    destruct d; try (revert Hin; apply string_of_uint_digits).
    simpl in Hin. destruct Hin as [Hin | []]. discriminate Hin.
Qed.

Lemma decimal_inj (n m : Z) : decimal n = decimal m -> n = m.
Proof.
  unfold decimal. intros Heq. apply DecimalZ.to_int_inj.
  assert (Hparse : forall z : Z,
             NilZero.int_of_string (NilZero.string_of_int (Z.to_int z))
             = Some (Z.to_int z)).
  { intros z. apply NilZero.isi; destruct z; simpl; try discriminate;
      intros [= Hnil]; exact (DecimalPos.Unsigned.to_uint_nonnil _ Hnil). }
  pose proof (Hparse n) as Hn. rewrite Heq, Hparse in Hn.
  injection Hn as Hn. symmetry. exact Hn.
Qed.

(** Two strings without [c] that are followed by [c] in one string are
    the same. *)
Lemma append_delimited_inj (c : ascii) (a b x y : string) :
  freeOf c a -> freeOf c b ->
  a ++ String c x = b ++ String c y -> a = b.
Proof.
  unfold freeOf. revert b.
  induction a as [|ca a IH]; intros [|cb b] Ha Hb Heq; simpl in *.
  - reflexivity.
  - injection Heq as Hc _. exfalso. apply Hb. left. symmetry. exact Hc.
  - injection Heq as Hc _. exfalso. apply Ha. left. exact Hc.
  - injection Heq as Hc Hrest. subst cb. f_equal.
    apply IH; [tauto | tauto | exact Hrest].
Qed.

Lemma stamped_inj (t1 t2 : Z) (id : string) :
  stamped t1 id -> stamped t2 id -> t1 = t2.
Proof.
  intros [s1 H1] [s2 H2]. rewrite H1 in H2.
  apply decimal_inj.
  assert (Hrest : decimal t1 ++ String "_" s1 = decimal t2 ++ String "_" s2).
  { simpl in H2. injection H2 as H2. exact H2. }
  apply (append_delimited_inj "_" _ _ s1 s2);
    [apply decimal_freeOf_underscore | apply decimal_freeOf_underscore | exact Hrest].
Qed.

Section Identifiers.

Context {platform : Platform}.

Lemma generateSessionId_stamped (w : World) :
  stamped (eval DateNow w) (eval generateSessionId w).
Proof.
  exists (substring_2_15 (toString36 (Math_random (draws w)))). reflexivity.
Qed.

(** X1: identifiers generated at different clock readings are different,
    whatever [Math.random()] returns. *)
Theorem generateSessionId_distinct (w1 w2 : World) :
  eval DateNow w1 <> eval DateNow w2 ->
  eval generateSessionId w1 <> eval generateSessionId w2.
Proof.
  intros Hnow Heq. apply Hnow.
  apply (stamped_inj _ _ (eval generateSessionId w1)).
  - apply generateSessionId_stamped.
  - rewrite Heq. apply generateSessionId_stamped.
Qed.

End Identifiers.

(** ** Lists of timers and of sessions *)

Lemma removeNth_app {A : Type} (l1 l2 : list A) (a : A) :
  removeNth (List.length l1) (l1 ++ a :: l2)%list = (l1 ++ l2)%list.
Proof.
  unfold removeNth. induction l1 as [|x l1 IH]; simpl; [reflexivity|].
  simpl in IH. rewrite IH. reflexivity.
Qed.

(** The timer at index [k] splits the pending timers. *)
Lemma timers_split {A : Type} (l : list A) (k : nat) (a : A) :
  nth_error l k = Some a ->
  exists l1 l2 : list A, l = (l1 ++ a :: l2)%list /\ removeNth k l = (l1 ++ l2)%list.
Proof.
  intros Hk. apply nth_error_split in Hk as (l1 & l2 & Hl & Hlen).
  exists l1, l2. split; [exact Hl|]. subst l k. apply removeNth_app.
Qed.

Lemma timeoutIds_app (l1 l2 : list Timer) :
  timeoutIds (l1 ++ l2) = (timeoutIds l1 ++ timeoutIds l2)%list.
Proof. apply flat_map_app. Qed.

Lemma timeoutIds_In (ts : list Timer) (id : string) :
  In id (timeoutIds ts) <->
  exists t, In t ts /\ callback t = ConnectionTimeout id.
Proof.
  unfold timeoutIds. rewrite in_flat_map. split.
  - intros (t & Hin & Hid). exists t. split; [exact Hin|].
    destruct (callback t) as [ | phone | id']; simpl in Hid; try contradiction.
    destruct Hid as [-> | []]. reflexivity.
  - intros (t & Hin & Hcb). exists t. split; [exact Hin|].
    rewrite Hcb. left. reflexivity.
Qed.

Lemma timeoutIds_resume (t : Timer) :
  isResume t = true -> timeoutIds [t] = [].
Proof.
  unfold isResume, timeoutIds. simpl.
  destruct (callback t); simpl; [reflexivity | reflexivity | discriminate].
Qed.

Lemma timeoutIds_timeout (t : Timer) (id : string) :
  callback t = ConnectionTimeout id -> timeoutIds [t] = [id] /\ isResume t = false.
Proof. unfold isResume, timeoutIds. simpl. intros ->. split; reflexivity. Qed.

Lemma In_markStatus (id : string) (st : Status) (l : list SessionData)
      (s' : SessionData) :
  In s' (markStatus id st l) ->
  exists s, In s l
            /\ sessionId s' = sessionId s /\ createdAt s' = createdAt s
            /\ qrCode s' = qrCode s
            /\ ((s' = s /\ sessionId s <> id) \/ (sessionId s = id /\ status s' = st)).
Proof.
  unfold markStatus. intros Hin. apply in_map_iff in Hin as (s & Hs & Hin).
  exists s. split; [exact Hin|].
  unfold hasId in Hs. destruct (String.eqb_spec (sessionId s) id) as [Hid|Hid];
    subst s'; repeat split; auto.
Qed.

Lemma sorted_markStatus (id : string) (st : Status) (l : list SessionData) :
  StronglySorted createdAfter l -> StronglySorted createdAfter (markStatus id st l).
Proof.
  induction 1 as [|a l Hsorted IH Hall]; simpl; constructor.
  - exact IH.
  - apply Forall_forall. intros s' Hin.
    apply In_markStatus in Hin as (s & Hin & _ & Hat & _).
    rewrite Forall_forall in Hall. specialize (Hall s Hin).
    unfold createdAfter, newerThan in *. rewrite Hat.
    destruct (hasId id a); exact Hall.
Qed.

Lemma sorted_filter (p : SessionData -> bool) (l : list SessionData) :
  StronglySorted createdAfter l -> StronglySorted createdAfter (filter p l).
Proof.
  induction 1 as [|a l Hsorted IH Hall]; simpl; [constructor|].
  destruct (p a); [constructor|]; try exact IH.
  apply Forall_forall. intros s Hin. apply filter_In in Hin as [Hin _].
  rewrite Forall_forall in Hall. exact (Hall s Hin).
Qed.

(** ** The clock inside the handlers *)

Section Readings.

Context {platform : Platform}.

(** A reading is not before the clock. *)
Lemma DateNow_later (w : World) : (now w <= eval DateNow w)%Z.
Proof. unfold eval, DateNow, readClock. simpl. lia. Qed.

Lemma now_generateSessionId (w : World) :
  now (exec generateSessionId w) = eval DateNow w.
Proof. rewrite exec_generateSessionId. reflexivity. Qed.

Lemma now_generateQRCode (w : World) : (now w <= now (exec generateQRCode w))%Z.
Proof.
  rewrite exec_generateQRCode.
  apply (DateNow_later (setDraws (2 + draws w) w)).
Qed.

Lemma now_generatePairCode (w : World) : now (exec generatePairCode w) = now w.
Proof. rewrite exec_generatePairCode. reflexivity. Qed.

(** The identifier of a new scan record is generated before the record
    is, and neither before the resumption. *)
Lemma newQRSession_times (w : World) :
  stamped (eval DateNow w) (sessionId (newQRSession w))
  /\ (now w <= eval DateNow w)%Z
  /\ (eval DateNow w <= createdAt (newQRSession w))%Z.
Proof.
  split; [apply generateSessionId_stamped|]. split; [apply DateNow_later|].
  unfold newQRSession. cbn [createdAt].
  pose proof (DateNow_later (exec generateQRCode (exec generateSessionId w))) as H1.
  pose proof (now_generateQRCode (exec generateSessionId w)) as H2.
  rewrite now_generateSessionId in H2. lia.
Qed.

Lemma newPairSession_times (phone : string) (w : World) :
  stamped (eval DateNow w) (sessionId (newPairSession phone w))
  /\ (now w <= eval DateNow w)%Z
  /\ (eval DateNow w <= createdAt (newPairSession phone w))%Z.
Proof.
  split; [apply generateSessionId_stamped|]. split; [apply DateNow_later|].
  unfold newPairSession. cbn [createdAt].
  pose proof (DateNow_later (exec generatePairCode (exec generateSessionId w))) as H1.
  rewrite now_generatePairCode, now_generateSessionId in H1. exact H1.
Qed.

(** What a click on a "Generate" button leaves: the busy flag, and the
    resumption, due [delay] after the reading of [setTimeout]. *)
Lemma click_fields (cb : Callback) (delay : Z) (w : World) :
  let w' := exec (setIsGenerating true ;; setTimeout cb delay) w in
  sessions w' = sessions w
  /\ (now w <= now w')%Z
  /\ timers w' = (timers w ++ [mkTimer (now w' + delay) cb])%list
  /\ isGenerating w' = true
  /\ toasts w' = toasts w
  /\ phoneNumberInput w' = phoneNumberInput w.
Proof.
  simpl. repeat split. lia.
Qed.

Lemma exec_createPairSession (w : World) :
  exec createPairSession w
  = if String.eqb (phoneNumberInput w) "" then exec (toast phoneNumberRequired) w
    else exec (setIsGenerating true ;;
               setTimeout (ResumeCreatePair (phoneNumberInput w)) 2000) w.
Proof.
  unfold exec, createPairSession.
  destruct (String.eqb (phoneNumberInput w) ""); reflexivity.
Qed.

(** What the resumption of [createQRSession] leaves. *)
Lemma resumeCreateQR_fields (w : World) :
  let w' := exec resumeCreateQR w in
  sessions w' = newQRSession w :: sessions w
  /\ (createdAt (newQRSession w) <= now w')%Z
  /\ timers w'
     = (timers w ++ [mkTimer (now w' + 30000)
                             (ConnectionTimeout (sessionId (newQRSession w)))])%list
  /\ isGenerating w' = false
  /\ toasts w' = (toasts w ++ [qrCreatedToast])%list
  /\ phoneNumberInput w' = phoneNumberInput w.
Proof.
  cbv zeta. rewrite exec_resumeCreateQR, builtQR_frame.
  generalize (createdAt (newQRSession w)) (sessionId (newQRSession w)) (newQRSession w).
  intros c id new. simpl. repeat split. lia.
Qed.

(** What the resumption of [createPairSession] leaves. *)
Lemma resumeCreatePair_fields (phone : string) (w : World) :
  let w' := exec (resumeCreatePair phone) w in
  sessions w' = newPairSession phone w :: sessions w
  /\ (createdAt (newPairSession phone w) <= now w')%Z
  /\ timers w'
     = (timers w ++ [mkTimer (now w' + 60000)
                             (ConnectionTimeout (sessionId (newPairSession phone w)))])%list
  /\ isGenerating w' = false
  /\ toasts w' = (toasts w ++ [pairCreatedToast])%list
  /\ phoneNumberInput w' = "".
Proof.
  cbv zeta. rewrite exec_resumeCreatePair, (builtPair_frame phone).
  generalize (createdAt (newPairSession phone w)) (sessionId (newPairSession phone w))
             (newPairSession phone w).
  intros c id new. simpl. repeat split. lia.
Qed.

End Readings.

(** ** The invariant of allowed runs *)

Lemma Coherent_initial : Coherent initialWorld.
Proof.
  constructor; simpl; try (intros; contradiction); try constructor.
Qed.

(** The invariant looks at the sessions, the timers, the busy flag and
    the clock only. *)
Lemma Coherent_same (w w' : World) :
  sessions w' = sessions w -> timers w' = timers w ->
  isGenerating w' = isGenerating w -> now w' = now w ->
  Coherent w -> Coherent w'.
Proof.
  intros Hs Ht Hg Hn [Hids Hpast Hord Hres Hbusy Hto Hnd Hdl Hdis Hlate].
  constructor; rewrite ?Hs, ?Ht, ?Hg, ?Hn; assumption.
Qed.

(** Time passes. *)
Lemma Coherent_later (w w' : World) :
  sessions w' = sessions w -> timers w' = timers w ->
  isGenerating w' = isGenerating w -> (now w <= now w')%Z ->
  Coherent w -> Coherent w'.
Proof.
  intros Hs Ht Hg Hn [Hids Hpast Hord Hres Hbusy Hto Hnd Hdl Hdis Hlate].
  constructor; rewrite ?Hs, ?Ht, ?Hg; try assumption.
  - intros s Hin. specialize (Hpast s Hin). lia.
  - intros t id Hin Hcb. destruct (Hto t id Hin Hcb) as (c & Hc & Hle & Hr).
    exists c. repeat split; [exact Hc | lia | exact Hr].
  - intros s Hin Hst. specialize (Hlate s Hin Hst). lia.
Qed.

Lemma Coherent_deleted (id : string) (w w' : World) :
  sessions w' = filter (fun session => negb (hasId id session)) (sessions w) ->
  timers w' = timers w -> isGenerating w' = isGenerating w -> now w' = now w ->
  Coherent w -> Coherent w'.
Proof.
  intros Hs Ht Hg Hn [Hids Hpast Hord Hres Hbusy Hto Hnd Hdl Hdis Hlate].
  assert (Hsub : forall s, In s (sessions w') -> In s (sessions w)).
  { intros s Hin. rewrite Hs in Hin. apply filter_In in Hin. tauto. }
  constructor; rewrite ?Ht, ?Hg, ?Hn; try assumption.
  - intros s Hin. apply Hids, Hsub, Hin.
  - intros s Hin. apply Hpast, Hsub, Hin.
  - rewrite Hs. apply sorted_filter, Hord.
  - intros r s Hr Hres' Hin. apply Hres; [exact Hr | exact Hres' | apply Hsub, Hin].
  - intros t id' s Hin Hcb Hs' Hid. apply (Hdl t id' s Hin Hcb (Hsub s Hs') Hid).
  - intros s Hin Hst. apply Hdis; [apply Hsub, Hin | exact Hst].
  - intros s Hin Hst. apply Hlate; [apply Hsub, Hin | exact Hst].
Qed.

(** [simulateConnection]: the records of [id] become connected. *)
Lemma Coherent_connected (id : string) (w w' : World) :
  sessions w' = markStatus id connected (sessions w) ->
  timers w' = timers w -> isGenerating w' = isGenerating w -> now w' = now w ->
  Coherent w -> Coherent w'.
Proof.
  intros Hs Ht Hg Hn [Hids Hpast Hord Hres Hbusy Hto Hnd Hdl Hdis Hlate].
  constructor; rewrite ?Ht, ?Hg, ?Hn; try assumption.
  - intros s' Hin. rewrite Hs in Hin.
    apply In_markStatus in Hin as (s & Hin & Hid & Hat & _).
    rewrite Hid, Hat. apply Hids, Hin.
  - intros s' Hin. rewrite Hs in Hin.
    apply In_markStatus in Hin as (s & Hin & _ & Hat & _).
    rewrite Hat. apply Hpast, Hin.
  - rewrite Hs. apply sorted_markStatus, Hord.
  - intros r s' Hr Hres' Hin. rewrite Hs in Hin.
    apply In_markStatus in Hin as (s & Hin & _ & Hat & _).
    rewrite Hat. apply Hres; assumption.
  - intros t id' s' Hin Hcb Hs' Hid'. rewrite Hs in Hs'.
    apply In_markStatus in Hs' as (s & Hin' & Hid & Hat & Hqr & _).
    unfold timeoutDelay. rewrite Hat, Hqr.
    apply (Hdl t id' s Hin Hcb Hin'). rewrite <- Hid. exact Hid'.
  - intros s' Hin Hst. rewrite Hs in Hin.
    apply In_markStatus in Hin as (s & Hin & Hid & _ & _ & [[-> _] | [_ Hst']]).
    + apply Hdis; assumption.
    + rewrite Hst in Hst'. discriminate Hst'.
  - intros s' Hin Hst. rewrite Hs in Hin.
    apply In_markStatus in Hin as (s & Hin & _ & _ & _ & [[-> _] | [_ Hst']]).
    + apply Hlate; assumption.
    + rewrite Hst in Hst'. discriminate Hst'.
Qed.

(** A "Generate" button is clicked while no creation is pending: the
    resumption is due [delay] after the reading [setTimeout] takes. *)
Lemma Coherent_clicked (cb : Callback) (delay : Z) (w w' : World) :
  isCreation cb = true -> (0 < delay)%Z ->
  isGenerating w = false ->
  sessions w' = sessions w ->
  (now w <= now w')%Z ->
  timers w' = (timers w ++ [mkTimer (now w' + delay) cb])%list ->
  isGenerating w' = true ->
  Coherent w -> Coherent w'.
Proof.
  intros Hcb Hdelay Hidle Hs Hn Ht Hg [Hids Hpast Hord Hres Hbusy Hto Hnd Hdl Hdis Hlate].
  rewrite Hidle in Hbusy.
  assert (Hresume : isResume (mkTimer (now w' + delay) cb) = true) by exact Hcb.
  assert (Hold : forall r, In r (timers w') -> isResume r = true ->
                           r = mkTimer (now w' + delay) cb).
  { intros r Hin Hr. rewrite Ht in Hin. apply in_app_iff in Hin as [Hin | [<- | []]];
      [|reflexivity].
    exfalso. assert (Hf : In r (filter isResume (timers w)))
      by (apply filter_In; split; assumption).
    destruct (filter isResume (timers w)); [exact Hf | discriminate Hbusy]. }
  assert (Hids' : timeoutIds (timers w') = timeoutIds (timers w)).
  { rewrite Ht, timeoutIds_app, (timeoutIds_resume _ Hresume). apply app_nil_r. }
  assert (Hin' : forall t id, In t (timers w') -> callback t = ConnectionTimeout id ->
                              In t (timers w)).
  { intros t id Hin Hcb'. rewrite Ht in Hin. apply in_app_iff in Hin as [Hin | [<- | []]];
      [exact Hin|]. simpl in Hcb'. rewrite Hcb' in Hcb. discriminate Hcb. }
  constructor; rewrite ?Hs, ?Hg, ?Hids'; try assumption.
  - intros s Hin. specialize (Hpast s Hin). lia.
  - intros r s Hr Hres' Hin. rewrite (Hold r Hr Hres'). simpl.
    specialize (Hpast s Hin). lia.
  - rewrite Ht, filter_app, length_app, Hbusy. simpl. rewrite Hresume. reflexivity.
  - intros t id Hin Hcb'. destruct (Hto t id (Hin' t id Hin Hcb') Hcb') as (c & Hc & Hle & _).
    exists c. repeat split; [exact Hc | lia|].
    intros r Hr Hres'. rewrite (Hold r Hr Hres'). simpl. lia.
  - intros t id s Hin Hcb' Hs' Hid. apply (Hdl t id s (Hin' t id Hin Hcb') Hcb' Hs' Hid).
  - intros s Hin Hst. specialize (Hlate s Hin Hst). lia.
Qed.

(** The timeout of [id] runs. *)
Lemma Coherent_expired (k : nat) (t : Timer) (id : string) (w w' : World) :
  nth_error (timers w) k = Some t -> callback t = ConnectionTimeout id ->
  (due t <= now w)%Z ->
  sessions w' = markStatus id disconnected (sessions w) ->
  timers w' = removeNth k (timers w) ->
  isGenerating w' = isGenerating w -> now w' = now w ->
  Coherent w -> Coherent w'.
Proof.
  intros Hk Hcb Hdue Hs Ht Hg Hn [Hids Hpast Hord Hres Hbusy Hto Hnd Hdl Hdis Hlate].
  destruct (timers_split _ _ _ Hk) as (l1 & l2 & Hsplit & Hrest).
  rewrite Hrest in Ht.
  destruct (timeoutIds_timeout t id Hcb) as [Hone Hnot].
  assert (Hsub : forall x, In x (timers w') -> In x (timers w)).
  { intros x Hin. rewrite Ht in Hin. rewrite Hsplit.
    apply in_app_iff in Hin as [Hin | Hin]; apply in_app_iff;
      [left | right; right]; exact Hin. }
  assert (Hall : timeoutIds (timers w)
                 = (timeoutIds l1 ++ id :: timeoutIds l2)%list).
  { rewrite Hsplit, timeoutIds_app.
    change (t :: l2) with ([t] ++ l2)%list. rewrite timeoutIds_app, Hone. reflexivity. }
  assert (Hleft : timeoutIds (timers w') = (timeoutIds l1 ++ timeoutIds l2)%list).
  { rewrite Ht. apply timeoutIds_app. }
  rewrite Hall in Hnd. pose proof (NoDup_remove _ _ _ Hnd) as [Hnd' Hfresh].
  assert (Hids_sub : forall x, In x (timeoutIds (timers w')) ->
                               In x (timeoutIds (timers w))).
  { intros x Hin. rewrite Hleft in Hin. rewrite Hall.
    apply in_app_iff in Hin as [Hin | Hin]; apply in_app_iff;
      [left | right; right]; exact Hin. }
  constructor; rewrite ?Hg, ?Hn.
  - intros s' Hin. rewrite Hs in Hin.
    apply In_markStatus in Hin as (s & Hin & Hid & Hat & _).
    rewrite Hid, Hat. apply Hids, Hin.
  - intros s' Hin. rewrite Hs in Hin.
    apply In_markStatus in Hin as (s & Hin & _ & Hat & _).
    rewrite Hat. apply Hpast, Hin.
  - rewrite Hs. apply sorted_markStatus, Hord.
  - intros r s' Hr Hres' Hin. rewrite Hs in Hin.
    apply In_markStatus in Hin as (s & Hin & _ & Hat & _).
    rewrite Hat. apply Hres; [apply Hsub, Hr | exact Hres' | exact Hin].
  - rewrite <- Hbusy, Ht, Hsplit, !filter_app. simpl. rewrite Hnot. reflexivity.
  - intros t' id' Hin Hcb'.
    destruct (Hto t' id' (Hsub t' Hin) Hcb') as (c & Hc & Hle & Hr).
    exists c. repeat split; [exact Hc | exact Hle|].
    intros r Hin' Hres'. apply Hr; [apply Hsub, Hin' | exact Hres'].
  - rewrite Hleft. exact Hnd'.
  - intros t' id' s' Hin Hcb' Hs' Hid'. rewrite Hs in Hs'.
    apply In_markStatus in Hs' as (s & Hin' & Hid & Hat & Hqr & _).
    unfold timeoutDelay. rewrite Hat, Hqr.
    apply (Hdl t' id' s (Hsub t' Hin) Hcb' Hin'). rewrite <- Hid. exact Hid'.
  - intros s' Hin Hst. rewrite Hs in Hin.
    apply In_markStatus in Hin as (s & Hin & Hid & _ & _ & [[-> _] | [Hsid _]]).
    + intros Hpending. apply (Hdis s Hin Hst). rewrite Hall.
      apply Hids_sub in Hpending. rewrite Hall in Hpending. exact Hpending.
    + rewrite Hid, Hsid, Hleft. exact Hfresh.
  - intros s' Hin Hst. rewrite Hs in Hin.
    apply In_markStatus in Hin as (s & Hin & _ & Hat & Hqr & [[-> _] | [Hsid _]]).
    + apply Hlate; assumption.
    + unfold timeoutDelay. rewrite Hat, Hqr.
      assert (Ht' : In t (timers w)) by (apply (nth_error_In _ _ Hk)).
      pose proof (Hdl t id s Ht' Hcb Hin Hsid) as Hdeadline.
      unfold timeoutDelay in Hdeadline. lia.
Qed.

(** A creation resumes: its record and its timeout are added.  The
    identifier is generated at the reading [c], the record is created
    later, and the timeout is scheduled later still. *)
Lemma Coherent_created (k : nat) (r : Timer) (new : SessionData) (c : Z) (w w' : World) :
  nth_error (timers w) k = Some r -> isResume r = true -> (due r <= now w)%Z ->
  stamped c (sessionId new) -> (now w <= c)%Z -> (c <= createdAt new)%Z ->
  (createdAt new <= now w')%Z ->
  status new = connecting ->
  sessions w' = new :: sessions w ->
  timers w' = (removeNth k (timers w)
               ++ [mkTimer (now w' + timeoutDelay new)
                           (ConnectionTimeout (sessionId new))])%list ->
  isGenerating w' = false ->
  Coherent w -> Coherent w'.
Proof.
  intros Hk Hresume Hdue Hstamp Hread Hat Hn Hstatus Hs Ht Hg
         [Hids Hpast Hord Hres Hbusy Hto Hnd Hdl Hdis Hlate].
  destruct (timers_split _ _ _ Hk) as (l1 & l2 & Hsplit & Hrest).
  rewrite Hrest in Ht.
  assert (Hr : In r (timers w)).
  { rewrite Hsplit. apply in_app_iff. right. left. reflexivity. }
  (* the resumed creation was the only pending one *)
  assert (Hnone : forall x, In x (l1 ++ l2)%list -> isResume x = false).
  { intros x Hin. destruct (isResume x) eqn:Hx; [exfalso | reflexivity].
    rewrite Hsplit, filter_app in Hbusy. simpl in Hbusy. rewrite Hresume in Hbusy.
    rewrite length_app in Hbusy. simpl in Hbusy.
    assert (Hpos : (0 < List.length (filter isResume l1)
                        + List.length (filter isResume l2))%nat).
    { apply in_app_iff in Hin as [Hin | Hin].
      - assert (Hf : In x (filter isResume l1)) by (apply filter_In; split; assumption).
        destruct (filter isResume l1); [contradiction | simpl; lia].
      - assert (Hf : In x (filter isResume l2)) by (apply filter_In; split; assumption).
        destruct (filter isResume l2); [contradiction | simpl; lia]. }
    destruct (isGenerating w); lia. }
  assert (Hsub : forall x, In x (l1 ++ l2)%list -> In x (timers w)).
  { intros x Hin. rewrite Hsplit.
    apply in_app_iff in Hin as [Hin | Hin]; apply in_app_iff;
      [left | right; right]; exact Hin. }
  assert (Hnew : forall x, In x (timers w') ->
                           In x (l1 ++ l2)%list
                           \/ x = mkTimer (now w' + timeoutDelay new)
                                          (ConnectionTimeout (sessionId new))).
  { intros x Hin. rewrite Ht in Hin.
    apply in_app_iff in Hin as [Hin | [<- | []]]; [left; exact Hin | right; reflexivity]. }
  assert (Hnoresume : forall x, In x (timers w') -> isResume x = false).
  { intros x Hin. destruct (Hnew x Hin) as [Hin' | ->]; [apply Hnone, Hin' | reflexivity]. }
  assert (Hkept : timeoutIds (l1 ++ l2) = timeoutIds (timers w)).
  { rewrite Hsplit, !timeoutIds_app.
    change (r :: l2) with ([r] ++ l2)%list.
    rewrite timeoutIds_app, (timeoutIds_resume r Hresume). reflexivity. }
  assert (Hleft : timeoutIds (timers w')
                  = (timeoutIds (timers w) ++ [sessionId new])%list).
  { rewrite Ht, timeoutIds_app, Hkept. reflexivity. }
  (* the new identifier is the one of no older record or timeout *)
  assert (Hfresh_sessions : forall s, In s (sessions w) -> sessionId s <> sessionId new).
  { intros s Hin Heq. destruct (Hids s Hin) as (c' & Hst & Hle). rewrite Heq in Hst.
    pose proof (stamped_inj _ _ _ Hst Hstamp) as Hsame.
    pose proof (Hres r s Hr Hresume Hin). lia. }
  assert (Hfresh_timeouts : ~ In (sessionId new) (timeoutIds (timers w))).
  { intros Hin. apply timeoutIds_In in Hin as (t & Hin & Hcb).
    destruct (Hto t _ Hin Hcb) as (c' & Hc & _ & Hlt).
    pose proof (stamped_inj _ _ _ Hc Hstamp) as Hsame.
    pose proof (Hlt r Hr Hresume). lia. }
  assert (Hold : forall s, In s (sessions w) -> (createdAt s < c)%Z).
  { intros s Hin. pose proof (Hres r s Hr Hresume Hin). lia. }
  constructor; rewrite ?Hg.
  - intros s Hin. rewrite Hs in Hin. destruct Hin as [<- | Hin].
    + exists c. split; [exact Hstamp | exact Hat].
    + apply Hids, Hin.
  - intros s Hin. rewrite Hs in Hin. destruct Hin as [<- | Hin].
    + exact Hn.
    + specialize (Hpast s Hin). specialize (Hold s Hin). lia.
  - rewrite Hs. constructor; [exact Hord|].
    apply Forall_forall. intros s Hin. specialize (Hold s Hin). split.
    + unfold newerThan. lia.
    + intros c' Hc'. rewrite (stamped_inj _ _ _ Hc' Hstamp). exact Hold.
  - intros x s Hin Hx. rewrite (Hnoresume x Hin) in Hx. discriminate Hx.
  - destruct (filter isResume (timers w')) as [|x rest] eqn:Hf; [reflexivity|].
    assert (Hin : In x (filter isResume (timers w'))) by (rewrite Hf; left; reflexivity).
    apply filter_In in Hin as [Hin Hx]. rewrite (Hnoresume x Hin) in Hx. discriminate Hx.
  - intros t id Hin Hcb. destruct (Hnew t Hin) as [Hin' | ->].
    + destruct (Hto t id (Hsub t Hin') Hcb) as (c' & Hc & Hle & _).
      exists c'. repeat split; [exact Hc | lia|].
      intros x Hx Hres'. rewrite (Hnoresume x Hx) in Hres'. discriminate Hres'.
    + simpl in Hcb. injection Hcb as <-. exists c.
      repeat split; [exact Hstamp | lia|].
      intros x Hx Hres'. rewrite (Hnoresume x Hx) in Hres'. discriminate Hres'.
  - rewrite Hleft. apply NoDup_app; [exact Hnd | constructor; [intros [] | constructor]|].
    intros id Hin [<- | []]. exact (Hfresh_timeouts Hin).
  - intros t id s Hin Hcb Hin' Hid. rewrite Hs in Hin'.
    destruct (Hnew t Hin) as [Ht' | ->]; destruct Hin' as [<- | Hin'].
    + exfalso. apply Hfresh_timeouts. rewrite Hid.
      apply timeoutIds_In. exists t. split; [apply Hsub, Ht' | exact Hcb].
    + apply (Hdl t id s (Hsub t Ht') Hcb Hin' Hid).
    + simpl. lia.
    + exfalso. simpl in Hcb. injection Hcb as <-. exact (Hfresh_sessions s Hin' Hid).
  - intros s Hin Hst. rewrite Hs in Hin. destruct Hin as [<- | Hin].
    + rewrite Hstatus in Hst. discriminate Hst.
    + rewrite Hleft. intros Hpending.
      apply in_app_iff in Hpending as [Hpending | [Heq | []]].
      * exact (Hdis s Hin Hst Hpending).
      * exact (Hfresh_sessions s Hin (eq_sym Heq)).
  - intros s Hin Hst. rewrite Hs in Hin. destruct Hin as [<- | Hin].
    + rewrite Hstatus in Hst. discriminate Hst.
    + specialize (Hlate s Hin Hst). specialize (Hpast s Hin). specialize (Hold s Hin). lia.
Qed.

Section AllowedRuns.

Context {platform : Platform}.

Lemma Coherent_perform (op : Op) (w : World) :
  Coherent w -> enabled w op = true -> Coherent (perform op w).
Proof.
  intros Hc Hen.
  destruct op as [ | | value | id | id | text type | ms | k]; unfold perform.
  - destruct (click_fields ResumeCreateQR 1500 w) as (Hs & Hn & Ht & Hg & _).
    apply (Coherent_clicked ResumeCreateQR 1500 w); try assumption; try reflexivity.
    simpl in Hen. apply negb_true_iff, Hen.
  - rewrite exec_createPairSession.
    destruct (String.eqb (phoneNumberInput w) "").
    + apply (Coherent_same w); try reflexivity. exact Hc.
    + destruct (click_fields (ResumeCreatePair (phoneNumberInput w)) 2000 w)
        as (Hs & Hn & Ht & Hg & _).
      apply (Coherent_clicked (ResumeCreatePair (phoneNumberInput w)) 2000 w);
        try assumption; try reflexivity.
      simpl in Hen. apply negb_true_iff, Hen.
  - apply (Coherent_same w); try reflexivity. exact Hc.
  - apply (Coherent_connected id w); try reflexivity. exact Hc.
  - apply (Coherent_deleted id w); try reflexivity. exact Hc.
  - destruct (copyToClipboard_frame text type w) as (Hs & Ht & Hg & Hn).
    apply (Coherent_same w); assumption.
  - apply (Coherent_later w); try reflexivity; [simpl; lia | exact Hc].
  - unfold fire. simpl in Hen.
    destruct (nth_error (timers w) k) as [t|] eqn:Hk; [|discriminate Hen].
    apply andb_true_iff in Hen as [Hdue _]. apply Z.leb_le in Hdue.
    destruct (callback t) as [ | phone | id] eqn:Hcb; unfold runCallback.
    + set (w0 := setTimers (removeNth k (timers w)) w).
      destruct (resumeCreateQR_fields w0) as (Hs & Hn & Ht & Hg & _).
      destruct (newQRSession_times w0) as (Hstamp & Hread & Hat).
      apply (Coherent_created k t (newQRSession w0) (eval DateNow w0) w);
        try assumption; try reflexivity.
      unfold isResume. rewrite Hcb. reflexivity.
    + set (w0 := setTimers (removeNth k (timers w)) w).
      destruct (resumeCreatePair_fields phone w0) as (Hs & Hn & Ht & Hg & _).
      destruct (newPairSession_times phone w0) as (Hstamp & Hread & Hat).
      apply (Coherent_created k t (newPairSession phone w0) (eval DateNow w0) w);
        try assumption; try reflexivity.
      unfold isResume. rewrite Hcb. reflexivity.
    + apply (Coherent_expired k t id w); try reflexivity; assumption.
Qed.

Lemma Coherent_run (ops : list Op) :
  forall w : World,
    Coherent w -> allEnabled ops w = true -> Coherent (run ops w).
Proof.
  induction ops as [|op ops IH]; intros w Hc Hen; [exact Hc|].
  rewrite run_cons. simpl in Hen. apply andb_true_iff in Hen as [Hop Hrest].
  apply IH; [apply Coherent_perform; assumption | exact Hrest].
Qed.

End AllowedRuns.

(** ** Consequences for allowed runs *)

Lemma allEnabled_app {platform : Platform} (ops ops' : list Op) :
  forall w : World,
    allEnabled (ops ++ ops') w = allEnabled ops w && allEnabled ops' (run ops w).
Proof.
  induction ops as [|op ops IH]; intros w; [reflexivity|].
  rewrite run_cons. cbn [allEnabled app]. rewrite IH, andb_assoc. reflexivity.
Qed.

Lemma distinct_ids (l : list SessionData) :
  StronglySorted createdAfter l ->
  (forall s, In s l -> exists c, stamped c (sessionId s) /\ (c <= createdAt s)%Z) ->
  NoDup (map sessionId l).
Proof.
  induction 1 as [|a l Hsorted IH Hall]; intros Hids; simpl; constructor.
  - intros Hin. apply in_map_iff in Hin as (s & Hid & Hin).
    rewrite Forall_forall in Hall. destruct (Hall s Hin) as [_ Hafter].
    destruct (Hids s (or_intror Hin)) as (c & Hc & Hle). rewrite Hid in Hc.
    specialize (Hafter c Hc). lia.
  - apply IH. intros s Hin. apply Hids. right. exact Hin.
Qed.

Lemma createdAfter_newerThan (l : list SessionData) :
  StronglySorted createdAfter l -> StronglySorted newerThan l.
Proof.
  induction 1 as [|a l Hsorted IH Hall]; [constructor|].
  constructor; [exact IH|].
  apply Forall_forall. intros s Hin. rewrite Forall_forall in Hall.
  exact (proj1 (Hall s Hin)).
Qed.

Lemma Coherent_distinct (w : World) :
  Coherent w -> NoDup (map sessionId (sessions w)).
Proof. intros Hc. apply distinct_ids; [apply Hc | apply Hc]. Qed.

(** Two records of a list of distinct identifiers that carry the same
    identifier are one record. *)
Lemma same_id_same_record (l : list SessionData) (a b : SessionData) :
  NoDup (map sessionId l) -> In a l -> In b l -> sessionId a = sessionId b -> a = b.
Proof.
  induction l as [|x l IH]; simpl; intros Hnd Ha Hb Hid; [contradiction|].
  inversion Hnd as [|? ? Hnotin Hnd']; subst.
  destruct Ha as [-> | Ha], Hb as [-> | Hb].
  - reflexivity.
  - exfalso. apply Hnotin. rewrite Hid. apply in_map, Hb.
  - exfalso. apply Hnotin. rewrite <- Hid. apply in_map, Ha.
  - apply IH; assumption.
Qed.

Section AllowedRunFacts.

Context {platform : Platform}.

(** X2: in every run from the initial state whose operations are all
    allowed, the list is in strictly decreasing order of [createdAt], the
    most recent record first. *)
Theorem allowed_run_newest_first (ops : list Op) :
  allEnabled ops initialWorld = true ->
  StronglySorted newerThan (sessions (run ops initialWorld)).
Proof.
  intros Hen.
  apply createdAfter_newerThan, (coherent_order _ (Coherent_run ops _ Coherent_initial Hen)).
Qed.

(** X3: in every allowed run from the initial state, the records of the
    list carry pairwise different identifiers. *)
Theorem allowed_run_distinct_ids (ops : list Op) :
  allEnabled ops initialWorld = true ->
  NoDup (map sessionId (sessions (run ops initialWorld))).
Proof.
  intros Hen. apply Coherent_distinct, (Coherent_run ops _ Coherent_initial Hen).
Qed.

(** X4: in every allowed run from the initial state, exactly one creation
    awaits its resumption while [isGenerating] is set, and none otherwise:
    two creations are never in flight together. *)
Theorem allowed_run_one_creation (ops : list Op) :
  allEnabled ops initialWorld = true ->
  List.length (filter isResume (timers (run ops initialWorld)))
  = if isGenerating (run ops initialWorld) then 1%nat else 0%nat.
Proof.
  intros Hen. apply (coherent_busy _ (Coherent_run ops _ Coherent_initial Hen)).
Qed.

(** X5: in every allowed run from the initial state, the pending timeouts
    are those of pairwise different identifiers (at most one timeout awaits
    a session), and no timeout is pending for a disconnected session. *)
Theorem allowed_run_one_timeout (ops : list Op) :
  allEnabled ops initialWorld = true ->
  NoDup (timeoutIds (timers (run ops initialWorld)))
  /\ forall s, In s (sessions (run ops initialWorld)) ->
               status s = disconnected ->
               ~ In (sessionId s) (timeoutIds (timers (run ops initialWorld))).
Proof.
  intros Hen. pose proof (Coherent_run ops _ Coherent_initial Hen) as Hc.
  split; [apply Hc | apply Hc].
Qed.

(** X6: in every allowed run from the initial state, the pending timeout
    of a listed session is due no earlier than [timeoutDelay] after its
    [createdAt], thirty seconds for a scan session, sixty for a pairing
    session: [setTimeout] is called after [new Date()], and the time that
    passes between the two is added to the delay. *)
Theorem allowed_run_deadline (ops : list Op) (t : Timer) (s : SessionData) :
  allEnabled ops initialWorld = true ->
  In t (timers (run ops initialWorld)) ->
  In s (sessions (run ops initialWorld)) ->
  callback t = ConnectionTimeout (sessionId s) ->
  (createdAt s + timeoutDelay s <= due t)%Z.
Proof.
  intros Hen Ht Hs Hcb.
  apply (coherent_deadline _ (Coherent_run ops _ Coherent_initial Hen)
                           t (sessionId s) s Ht Hcb Hs eq_refl).
Qed.

(** X20: in every allowed run from the initial state, a session of the
    list is disconnected only once its deadline has passed: thirty seconds
    after [createdAt] for a scan session, sixty for a pairing session. *)
Theorem no_early_disconnect (ops : list Op) (s : SessionData) :
  allEnabled ops initialWorld = true ->
  In s (sessions (run ops initialWorld)) ->
  status s = disconnected ->
  (createdAt s + timeoutDelay s <= now (run ops initialWorld))%Z.
Proof.
  intros Hen Hin Hst.
  apply (coherent_not_early _ (Coherent_run ops _ Coherent_initial Hen) s Hin Hst).
Qed.

End AllowedRunFacts.

Section Retirement.

Context {platform : Platform}.

Lemma In_removeNth {A : Type} (k : nat) (l : list A) (x : A) :
  In x (removeNth k l) -> In x l.
Proof.
  unfold removeNth. intros Hin. rewrite <- (firstn_skipn k l).
  apply in_app_iff in Hin as [Hin | Hin]; apply in_app_iff; [left; exact Hin|].
  right. rewrite <- (firstn_skipn 1 (skipn k l)), skipn_skipn.
  apply in_app_iff. right. exact Hin.
Qed.

(** What an allowed operation does to the clock, to the pending creations
    and to the identifiers of the list: the identifiers of the list were
    there before, or one record is added whose identifier bears a clock
    reading of the operation, by a creation that was due. *)
Lemma perform_cases (op : Op) (w : World) :
  enabled w op = true ->
  (now w <= now (perform op w))%Z
  /\ (forall r, In r (timers (perform op w)) -> isResume r = true ->
                In r (timers w) \/ (now w < due r)%Z)
  /\ ((forall s', In s' (sessions (perform op w)) ->
                  exists s, In s (sessions w) /\ sessionId s' = sessionId s)
      \/ (exists new c r,
            sessions (perform op w) = new :: sessions w
            /\ stamped c (sessionId new)
            /\ (now w <= c)%Z /\ (c <= now (perform op w))%Z
            /\ In r (timers w) /\ isResume r = true /\ (due r <= now w)%Z)).
Proof.
  intros Hen.
  assert (Hkeep : forall l : list SessionData,
             forall s', In s' l -> exists s, In s l /\ sessionId s' = sessionId s).
  { intros l s' Hin. exists s'. split; [exact Hin | reflexivity]. }
  assert (Hmark : forall id st (l : list SessionData),
             forall s', In s' (markStatus id st l) ->
                        exists s, In s l /\ sessionId s' = sessionId s).
  { intros id st l s' Hin. apply In_markStatus in Hin as (s & Hin & Hid & _).
    exists s. split; assumption. }
  assert (Hclick : forall (cb : Callback) (d : Z),
             (0 < d)%Z ->
             let w' := exec (setIsGenerating true ;; setTimeout cb d) w in
             (now w <= now w')%Z
             /\ (forall r, In r (timers w') -> isResume r = true ->
                           In r (timers w) \/ (now w < due r)%Z)
             /\ ((forall s', In s' (sessions w') ->
                             exists s, In s (sessions w) /\ sessionId s' = sessionId s)
                 \/ (exists new c r,
                       sessions w' = new :: sessions w
                       /\ stamped c (sessionId new)
                       /\ (now w <= c)%Z /\ (c <= now w')%Z
                       /\ In r (timers w) /\ isResume r = true /\ (due r <= now w)%Z))).
  { intros cb d Hd w'.
    destruct (click_fields cb d w) as (Hs & Hn & Ht & _). fold w' in Hs, Hn, Ht.
    split; [exact Hn|]. split; [|left; rewrite Hs; apply Hkeep].
    intros r Hin _. rewrite Ht in Hin.
    apply in_app_iff in Hin as [Hin | [<- | []]]; [left; exact Hin | right; simpl; lia]. }
  destruct op as [ | | value | id | id | text type | ms | k]; unfold perform.
  - apply (Hclick ResumeCreateQR 1500%Z). lia.
  - rewrite exec_createPairSession.
    destruct (String.eqb (phoneNumberInput w) "").
    + split; [simpl; lia|]. split; [|left; apply Hkeep].
      intros r Hin _. left. exact Hin.
    + apply (Hclick (ResumeCreatePair (phoneNumberInput w)) 2000%Z). lia.
  - split; [simpl; lia|]. split; [|left; apply Hkeep].
    intros r Hin _. left. exact Hin.
  - split; [simpl; lia|]. split; [|left; apply Hmark].
    intros r Hin _. left. exact Hin.
  - split; [simpl; lia|]. split.
    + intros r Hin _. left. exact Hin.
    + left. intros s' Hin. simpl in Hin. apply filter_In in Hin as [Hin _].
      exists s'. split; [exact Hin | reflexivity].
  - destruct (copyToClipboard_frame text type w) as (Hs & Ht & _ & Hn).
    rewrite Hs, Ht, Hn.
    split; [lia|]. split; [|left; apply Hkeep].
    intros r Hin _. left. exact Hin.
  - split; [simpl; lia|]. split; [|left; apply Hkeep].
    intros r Hin _. left. exact Hin.
  - unfold fire. simpl in Hen.
    destruct (nth_error (timers w) k) as [t|] eqn:Hk; [|discriminate Hen].
    apply andb_true_iff in Hen as [Hdue _]. apply Z.leb_le in Hdue.
    pose proof (nth_error_In _ _ Hk) as Ht.
    set (w1 := setTimers (removeNth k (timers w)) w).
    assert (Hresumes : forall (cb : Callback) (d : Z) (r : Timer),
               isCreation cb = false ->
               In r (removeNth k (timers w) ++ [mkTimer d cb])%list ->
               isResume r = true -> In r (timers w) \/ (now w < due r)%Z).
    { intros cb d r Hcb Hin Hr. left.
      apply in_app_iff in Hin as [Hin | [<- | []]]; [apply (In_removeNth k), Hin|].
      unfold isResume in Hr. simpl in Hr. rewrite Hr in Hcb. discriminate Hcb. }
    destruct (callback t) as [ | phone | id] eqn:Hcb; unfold runCallback.
    + destruct (resumeCreateQR_fields w1) as (Hs & Hn & Htimers & _).
      destruct (newQRSession_times w1) as (Hstamp & Hread & Hat).
      change (now w1) with (now w) in Hread.
      rewrite Htimers, Hs.
      split; [lia|]. split; [intros r Hin Hr; apply (Hresumes (ConnectionTimeout _) _ r eq_refl Hin Hr)|].
      right. exists (newQRSession w1), (eval DateNow w1), t.
      repeat split; try assumption; [lia|].
      unfold isResume. rewrite Hcb. reflexivity.
    + destruct (resumeCreatePair_fields phone w1) as (Hs & Hn & Htimers & _).
      destruct (newPairSession_times phone w1) as (Hstamp & Hread & Hat).
      change (now w1) with (now w) in Hread.
      rewrite Htimers, Hs.
      split; [lia|]. split; [intros r Hin Hr; apply (Hresumes (ConnectionTimeout _) _ r eq_refl Hin Hr)|].
      right. exists (newPairSession phone w1), (eval DateNow w1), t.
      repeat split; try assumption; [lia|].
      unfold isResume. rewrite Hcb. reflexivity.
    + split; [simpl; lia|]. split; [|left; apply Hmark].
      intros r Hin _. left. apply (In_removeNth k), Hin.
Qed.

Lemma absent_no_record (id : string) (l : list SessionData) :
  existsb (hasId id) l = false <-> forall s, In s l -> sessionId s <> id.
Proof.
  split.
  - intros Hno s Hin Hid.
    assert (Hyes : existsb (hasId id) l = true).
    { apply existsb_exists. exists s. split; [exact Hin|].
      unfold hasId. rewrite Hid. apply String.eqb_refl. }
    rewrite Hno in Hyes. discriminate Hyes.
  - intros Hall. destruct (existsb (hasId id) l) eqn:Hex; [exfalso | reflexivity].
    apply existsb_exists in Hex as (s & Hin & Hid).
    apply String.eqb_eq in Hid. exact (Hall s Hin Hid).
Qed.

Lemma Retired_perform (id : string) (op : Op) (w : World) :
  enabled w op = true -> Retired id w -> Retired id (perform op w).
Proof.
  intros Hen [Habsent (c & Hc & Hle & Hres)].
  destruct (perform_cases op w Hen) as (Hnow & Htimers & Hsessions).
  rewrite absent_no_record in Habsent.
  split.
  - apply absent_no_record. intros s' Hin Hid.
    destruct Hsessions as [Hold | (new & c' & r & Hs & Hstamp & Hread & _ & Hr & Hresume & Hdue)].
    + destruct (Hold s' Hin) as (s & Hin' & Hsame).
      apply (Habsent s Hin'). rewrite <- Hsame. exact Hid.
    + rewrite Hs in Hin. destruct Hin as [<- | Hin]; [|exact (Habsent s' Hin Hid)].
      rewrite Hid in Hstamp. pose proof (stamped_inj _ _ _ Hc Hstamp).
      pose proof (Hres r Hr Hresume). lia.
  - exists c. repeat split; [exact Hc | lia|].
    intros r Hin Hresume. destruct (Htimers r Hin Hresume) as [Hold | Hlater];
      [apply Hres; assumption | lia].
Qed.

Lemma Retired_run (id : string) (ops : list Op) :
  forall w : World,
    allEnabled ops w = true -> Retired id w -> Retired id (run ops w).
Proof.
  induction ops as [|op ops IH]; intros w Hen Hret; [exact Hret|].
  rewrite run_cons. simpl in Hen. apply andb_true_iff in Hen as [Hop Hrest].
  apply IH; [exact Hrest | apply Retired_perform; assumption].
Qed.

(** Deleting a listed session retires its identifier. *)
Lemma Retired_deleted (id : string) (w : World) :
  Coherent w -> enabled w (DeleteSession id) = true ->
  Retired id (perform (DeleteSession id) w).
Proof.
  intros Hc Hen. simpl in Hen. apply existsb_exists in Hen as (s & Hin & Hid).
  apply String.eqb_eq in Hid. split.
  - simpl. apply filter_removes.
  - destruct (coherent_ids _ Hc s Hin) as (c & Hstamp & Hle).
    exists c. repeat split.
    + rewrite <- Hid. exact Hstamp.
    + pose proof (coherent_past _ Hc s Hin). simpl. lia.
    + intros r Hr Hresume. pose proof (coherent_resume _ Hc r s Hr Hresume Hin). lia.
Qed.

(** X7: in an allowed run from the initial state, once a session has been
    deleted no record ever carries its identifier again; so whenever the
    timeout of the deleted session runs later, it leaves the list as it
    is. *)
Theorem deleted_id_never_returns (ops1 ops2 : list Op) (id : string) :
  allEnabled (ops1 ++ DeleteSession id :: ops2) initialWorld = true ->
  existsb (hasId id) (sessions (run (ops1 ++ DeleteSession id :: ops2) initialWorld))
  = false
  /\ sessions (exec (connectionTimeout id)
                    (run (ops1 ++ DeleteSession id :: ops2) initialWorld))
     = sessions (run (ops1 ++ DeleteSession id :: ops2) initialWorld).
Proof.
  intros Hen. rewrite allEnabled_app in Hen.
  apply andb_true_iff in Hen as [Hen1 Hen2].
  cbn [allEnabled] in Hen2. apply andb_true_iff in Hen2 as [Hdel Hen2].
  pose proof (Coherent_run ops1 _ Coherent_initial Hen1) as Hc.
  pose proof (Retired_run id ops2 _ Hen2 (Retired_deleted id _ Hc Hdel)) as [Habsent _].
  rewrite run_app, run_cons.
  split; [exact Habsent|].
  simpl. apply markStatus_absent, Habsent.
Qed.

End Retirement.

(** ** The life of a session in an allowed run *)

Lemma statusOf_present (id : string) (w : World) (s : SessionData) :
  NoDup (map sessionId (sessions w)) -> In s (sessions w) -> sessionId s = id ->
  statusOf id w = Some (status s).
Proof.
  unfold statusOf. intros Hnd Hin Hid.
  destruct (find (hasId id) (sessions w)) as [s0|] eqn:Hfind.
  - apply find_some in Hfind as [Hin0 Hid0]. apply String.eqb_eq in Hid0.
    rewrite (same_id_same_record _ s0 s Hnd Hin0 Hin); [reflexivity|].
    rewrite Hid0, Hid. reflexivity.
  - exfalso. pose proof (find_none _ _ Hfind s Hin) as Hno.
    unfold hasId in Hno. rewrite Hid, String.eqb_refl in Hno. discriminate Hno.
Qed.

Lemma statusOf_absent (id : string) (w : World) :
  statusOf id w = None <-> existsb (hasId id) (sessions w) = false.
Proof.
  unfold statusOf. split.
  - intros Hnone. destruct (find (hasId id) (sessions w)) eqn:Hfind; [discriminate|].
    destruct (existsb (hasId id) (sessions w)) eqn:Hex; [exfalso | reflexivity].
    apply existsb_exists in Hex as (s & Hin & Hid).
    rewrite (find_none _ _ Hfind s Hin) in Hid. discriminate Hid.
  - intros Hno. destruct (find (hasId id) (sessions w)) as [s|] eqn:Hfind; [|reflexivity].
    apply find_some in Hfind as [Hin Hid].
    assert (Hex : existsb (hasId id) (sessions w) = true)
      by (apply existsb_exists; exists s; split; assumption).
    rewrite Hno in Hex. discriminate Hex.
Qed.

Lemma statusOf_found (id : string) (w : World) (st : Status) :
  statusOf id w = Some st ->
  exists s, In s (sessions w) /\ sessionId s = id /\ status s = st.
Proof.
  unfold statusOf. destruct (find (hasId id) (sessions w)) as [s|] eqn:Hfind;
    [|discriminate].
  intros [= <-]. apply find_some in Hfind as [Hin Hid]. apply String.eqb_eq in Hid.
  exists s. repeat split; assumption.
Qed.

Section Life.

Context {platform : Platform}.

(** A record of the list after an allowed operation continues a record of
    the same identifier, with the same status, from connecting to
    connected, or to disconnected; or it is new, connecting, and its
    identifier was not in the list. *)
Lemma allowed_step (op : Op) (w : World) (s' : SessionData) :
  Coherent w -> enabled w op = true ->
  In s' (sessions (perform op w)) ->
  (exists s, In s (sessions w) /\ sessionId s = sessionId s'
             /\ (status s' = status s
                 \/ (status s = connecting /\ status s' = connected)
                 \/ status s' = disconnected))
  \/ (status s' = connecting
      /\ forall s, In s (sessions w) -> sessionId s <> sessionId s').
Proof.
  intros Hc Hen Hin.
  pose proof (Coherent_distinct _ Hc) as Hnd.
  pose proof (Coherent_distinct _ (Coherent_perform op w Hc Hen)) as Hnd'.
  assert (Hsame : In s' (sessions w) ->
                  exists s, In s (sessions w) /\ sessionId s = sessionId s'
                            /\ (status s' = status s
                                \/ (status s = connecting /\ status s' = connected)
                                \/ status s' = disconnected)).
  { intros Hold. exists s'. repeat split; [exact Hold | left; reflexivity]. }
  assert (Hnew : forall new, sessions (perform op w) = new :: sessions w ->
                             status new = connecting ->
                             (exists s, In s (sessions w) /\ sessionId s = sessionId s'
                                        /\ (status s' = status s
                                            \/ (status s = connecting /\ status s' = connected)
                                            \/ status s' = disconnected))
                             \/ (status s' = connecting
                                 /\ forall s, In s (sessions w) -> sessionId s <> sessionId s')).
  { intros new Hs Hst. rewrite Hs in Hin, Hnd'. destruct Hin as [<- | Hold].
    - right. split; [exact Hst|]. intros s Hs' Hid.
      simpl in Hnd'. inversion Hnd' as [|? ? Hnotin _]; subst.
      apply Hnotin. rewrite <- Hid. apply in_map, Hs'.
    - left. apply Hsame, Hold. }
  destruct op as [ | | value | id | id | text type | ms | k]; unfold perform in *.
  - left. apply Hsame, Hin.
  - left. apply Hsame. revert Hin. rewrite exec_createPairSession.
    destruct (String.eqb (phoneNumberInput w) ""); exact (fun H => H).
  - left. apply Hsame, Hin.
  - left. simpl in Hin. apply In_markStatus in Hin as (s & Hs & Hid & _ & _ & Hcase).
    exists s. repeat split; [exact Hs | symmetry; exact Hid|].
    destruct Hcase as [[-> _] | [Hsid Hst]]; [left; reflexivity|].
    right. left. split; [|exact Hst].
    simpl in Hen. apply existsb_exists in Hen as (s3 & Hs3 & Hboth).
    apply andb_true_iff in Hboth as [Hid3 Hconn]. apply String.eqb_eq in Hid3.
    assert (Heq : s3 = s).
    { apply (same_id_same_record _ _ _ Hnd Hs3 Hs). rewrite Hid3, Hsid. reflexivity. }
    subst s3. unfold isConnecting in Hconn. destruct (status s); try discriminate Hconn.
    reflexivity.
  - left. apply Hsame. simpl in Hin. apply filter_In in Hin. tauto.
  - left. apply Hsame.
    rewrite (proj1 (copyToClipboard_frame text type w)) in Hin. exact Hin.
  - left. apply Hsame, Hin.
  - unfold fire in *. simpl in Hen.
    destruct (nth_error (timers w) k) as [t|] eqn:Hk; [|discriminate Hen].
    destruct (callback t) as [ | phone | id] eqn:Hcb; unfold runCallback in *.
    + apply (Hnew _ (sessions_resumeCreateQR _)). reflexivity.
    + apply (Hnew _ (sessions_resumeCreatePair _ _)). reflexivity.
    + left. simpl in Hin. apply In_markStatus in Hin as (s & Hs & Hid & _ & _ & Hcase).
      exists s. repeat split; [exact Hs | symmetry; exact Hid|].
      destruct Hcase as [[-> _] | [_ Hst]]; [left; reflexivity | right; right; exact Hst].
Qed.

Lemma allowed_step_status (op : Op) (w : World) (id : string) :
  Coherent w -> enabled w op = true ->
  allowedTransition (statusOf id w) (statusOf id (perform op w)) = true.
Proof.
  intros Hc Hen.
  pose proof (Coherent_distinct _ Hc) as Hnd.
  destruct (statusOf id (perform op w)) as [st'|] eqn:Hafter.
  - apply statusOf_found in Hafter as (s' & Hin & Hid & Hst).
    destruct (allowed_step op w s' Hc Hen Hin)
      as [(s & Hs & Hsame & Hcase) | [Hconn Hfresh]].
    + rewrite (statusOf_present id w s Hnd Hs) by (rewrite Hsame; exact Hid).
      rewrite <- Hst.
      destruct Hcase as [-> | [[-> ->] | ->]]; destruct (status s); reflexivity.
    + assert (Hnone : statusOf id w = None).
      { apply statusOf_absent, absent_no_record. intros s Hs. rewrite <- Hid.
        apply Hfresh, Hs. }
      rewrite Hnone, <- Hst, Hconn. reflexivity.
  - destruct (statusOf id w) as [[ | | ]|]; reflexivity.
Qed.

(** X8: in an allowed run from the initial state, one more allowed
    operation changes the observed status of an identifier along
    [allowedTransition] only: an identifier appears as connecting; a
    connected session never shows connecting again; a disconnected session
    stays disconnected until it is deleted. *)
Theorem allowed_transitions (ops : list Op) (op : Op) (id : string) :
  allEnabled (ops ++ [op]) initialWorld = true ->
  allowedTransition (statusOf id (run ops initialWorld))
                    (statusOf id (run (ops ++ [op]) initialWorld)) = true.
Proof.
  intros Hen. rewrite allEnabled_app in Hen.
  apply andb_true_iff in Hen as [Hen Hop].
  cbn [allEnabled] in Hop. rewrite andb_true_r in Hop.
  rewrite run_app. change (run [op] (run ops initialWorld))
    with (perform op (run ops initialWorld)).
  apply allowed_step_status; [apply Coherent_run; [apply Coherent_initial | exact Hen]|].
  exact Hop.
Qed.

End Life.

Lemma stage_allowed (before after : option Status) :
  allowedTransition before after = true -> before <> None ->
  (stage before <= stage after)%nat.
Proof.
  destruct before as [[ | | ]|], after as [[ | | ]|]; simpl;
    intros Hallowed Hsome; try discriminate Hallowed; try lia.
  contradiction.
Qed.

Lemma statusOf_markStatus_other (id id' : string) (st : Status) (l : list SessionData) :
  id' <> id ->
  option_map status (find (hasId id') (markStatus id st l))
  = option_map status (find (hasId id') l).
Proof.
  intros Hother. induction l as [|x l IH]; simpl; [reflexivity|].
  unfold hasId in *.
  destruct (String.eqb_spec (sessionId x) id) as [Hx|Hx]; simpl.
  - destruct (String.eqb_spec (sessionId x) id') as [Hx'|Hx'].
    + exfalso. apply Hother. rewrite <- Hx', Hx. reflexivity.
    + exact IH.
  - destruct (String.eqb (sessionId x) id'); [reflexivity | exact IH].
Qed.

Lemma delete_one (id : string) (l : list SessionData) :
  NoDup (map sessionId l) -> existsb (hasId id) l = true ->
  S (List.length (filter (fun session => negb (hasId id session)) l)) = List.length l.
Proof.
  induction l as [|x l IH]; simpl; intros Hnd Hex; [discriminate Hex|].
  inversion Hnd as [|? ? Hnotin Hnd']; subst.
  destruct (hasId id x) eqn:Hx; simpl.
  - rewrite filter_absent; [reflexivity|].
    apply absent_no_record. intros s Hin Hid. apply Hnotin.
    unfold hasId in Hx. apply String.eqb_eq in Hx. rewrite Hx, <- Hid.
    apply in_map, Hin.
  - f_equal. apply IH; assumption.
Qed.

Section Forward.

Context {platform : Platform}.

(** A listed identifier whose record goes away is retired. *)
Lemma Retired_after (op : Op) (w : World) (id : string) :
  Coherent w -> enabled w op = true ->
  statusOf id w <> None -> statusOf id (perform op w) = None ->
  Retired id (perform op w).
Proof.
  intros Hc Hen Hsome Hnone.
  destruct (statusOf id w) as [st|] eqn:Hbefore; [|contradiction].
  apply statusOf_found in Hbefore as (s & Hin & Hid & _).
  destruct (perform_cases op w Hen) as (Hnow & Htimers & _).
  split; [apply statusOf_absent, Hnone|].
  destruct (coherent_ids _ Hc s Hin) as (c & Hstamp & Hle).
  pose proof (coherent_past _ Hc s Hin) as Hpast.
  exists c. repeat split.
  - rewrite <- Hid. exact Hstamp.
  - lia.
  - intros r Hr Hresume. destruct (Htimers r Hr Hresume) as [Hold | Hlater].
    + pose proof (coherent_resume _ Hc r s Hold Hresume Hin). lia.
    + lia.
Qed.

(** An identifier that is listed or retired stays listed or retired. *)
Lemma known_run (id : string) (ops : list Op) :
  forall w : World,
    allEnabled ops w = true -> Coherent w ->
    statusOf id w <> None \/ Retired id w ->
    statusOf id (run ops w) <> None \/ Retired id (run ops w).
Proof.
  induction ops as [|op ops IH]; intros w Hen Hc Hknown; [exact Hknown|].
  rewrite run_cons. simpl in Hen. apply andb_true_iff in Hen as [Hop Hrest].
  apply IH; [exact Hrest | apply Coherent_perform; assumption|].
  destruct Hknown as [Hsome | Hretired].
  - destruct (statusOf id (perform op w)) eqn:Hafter; [left; discriminate|].
    right. apply Retired_after; assumption.
  - right. apply Retired_perform; assumption.
Qed.

Lemma stage_run (id : string) (ops : list Op) :
  forall w : World,
    allEnabled ops w = true -> Coherent w ->
    statusOf id w <> None \/ Retired id w ->
    (stage (statusOf id w) <= stage (statusOf id (run ops w)))%nat.
Proof.
  induction ops as [|op ops IH]; intros w Hen Hc Hknown; [apply Nat.le_refl|].
  rewrite run_cons. simpl in Hen. apply andb_true_iff in Hen as [Hop Hrest].
  pose proof (Coherent_perform op w Hc Hop) as Hc'.
  destruct Hknown as [Hsome | Hretired].
  - apply Nat.le_trans with (stage (statusOf id (perform op w))).
    + apply stage_allowed; [apply allowed_step_status; assumption | exact Hsome].
    + apply IH; [exact Hrest | exact Hc'|].
      destruct (statusOf id (perform op w)) eqn:Hafter; [left; discriminate|].
      right. apply Retired_after; assumption.
  - pose proof (Retired_run id ops _ Hrest (Retired_perform id op w Hop Hretired))
      as [Habsent _].
    apply statusOf_absent in Habsent. rewrite Habsent. simpl.
    destruct (statusOf id w) as [[ | | ]|]; simpl; lia.
Qed.

(** X9: in an allowed run from the initial state, from the moment a
    session is listed (after [ops0]) its status only moves forward through
    connecting, connected, disconnected, deleted: between any two later
    moments of the run (after [ops1] and after [ops2]) it never goes back,
    and a session that is deleted at the first one is still deleted at
    the second: a deleted session never shows again. *)
Theorem status_moves_forward (ops0 ops1 ops2 : list Op) (id : string) :
  allEnabled (ops0 ++ ops1 ++ ops2) initialWorld = true ->
  statusOf id (run ops0 initialWorld) <> None ->
  (stage (statusOf id (run (ops0 ++ ops1) initialWorld))
   <= stage (statusOf id (run (ops0 ++ ops1 ++ ops2) initialWorld)))%nat
  /\ (statusOf id (run (ops0 ++ ops1) initialWorld) = None ->
      statusOf id (run (ops0 ++ ops1 ++ ops2) initialWorld) = None).
Proof.
  intros Hen Hsome. rewrite !allEnabled_app in Hen.
  apply andb_true_iff in Hen as [Hen0 Hen]. apply andb_true_iff in Hen as [Hen1 Hen2].
  pose proof (Coherent_run ops0 _ Coherent_initial Hen0) as Hc0.
  pose proof (Coherent_run ops1 _ Hc0 Hen1) as Hc1.
  pose proof (known_run id ops1 _ Hen1 Hc0 (or_introl Hsome)) as Hknown.
  rewrite !run_app.
  pose proof (stage_run id ops2 _ Hen2 Hc1 Hknown) as Hstage.
  split; [exact Hstage|].
  intros Hnone. rewrite Hnone in Hstage. simpl in Hstage.
  destruct (statusOf id (run ops2 (run ops1 (run ops0 initialWorld)))) as [[ | | ]|];
    simpl in Hstage; try lia. reflexivity.
Qed.

(** X10: in an allowed run from the initial state, "Delete Session"
    removes exactly one record. *)
Theorem delete_removes_one (ops : list Op) (id : string) :
  allEnabled (ops ++ [DeleteSession id]) initialWorld = true ->
  S (List.length (sessions (run (ops ++ [DeleteSession id]) initialWorld)))
  = List.length (sessions (run ops initialWorld)).
Proof.
  intros Hen. rewrite allEnabled_app in Hen.
  apply andb_true_iff in Hen as [Hen Hop].
  cbn [allEnabled] in Hop. rewrite andb_true_r in Hop.
  rewrite run_app.
  change (sessions (run [DeleteSession id] (run ops initialWorld)))
    with (filter (fun session => negb (hasId id session))
                 (sessions (run ops initialWorld))).
  apply delete_one; [|exact Hop].
  apply Coherent_distinct, Coherent_run; [apply Coherent_initial | exact Hen].
Qed.

(** X11: in an allowed run from the initial state, "Simulate Connect"
    takes its session from connecting to connected and leaves the status
    of every other identifier as it is. *)
Theorem simulate_connects_one (ops : list Op) (id : string) :
  allEnabled (ops ++ [SimulateConnection id]) initialWorld = true ->
  statusOf id (run ops initialWorld) = Some connecting
  /\ statusOf id (run (ops ++ [SimulateConnection id]) initialWorld) = Some connected
  /\ forall id' : string,
       id' <> id ->
       statusOf id' (run (ops ++ [SimulateConnection id]) initialWorld)
       = statusOf id' (run ops initialWorld).
Proof.
  intros Hen. pose proof Hen as Hall. rewrite allEnabled_app in Hen.
  apply andb_true_iff in Hen as [Hen Hop].
  cbn [allEnabled] in Hop. rewrite andb_true_r in Hop.
  pose proof (Coherent_run ops _ Coherent_initial Hen) as Hc.
  pose proof (Coherent_distinct _ (Coherent_run _ _ Coherent_initial Hall)) as Hnd'.
  pose proof Hop as Hoffered. simpl in Hoffered.
  apply existsb_exists in Hoffered as (s & Hin & Hboth).
  apply andb_true_iff in Hboth as [Hid Hconn]. apply String.eqb_eq in Hid.
  assert (Hst : status s = connecting).
  { unfold isConnecting in Hconn. destruct (status s); try discriminate Hconn.
    reflexivity. }
  rewrite run_app in *.
  change (run [SimulateConnection id] (run ops initialWorld))
    with (exec (simulateConnection id) (run ops initialWorld)) in *.
  repeat split.
  - rewrite (statusOf_present id _ s (Coherent_distinct _ Hc) Hin Hid), Hst. reflexivity.
  - apply (statusOf_present id _ (withStatus connected s) Hnd'); [|exact Hid].
    simpl. unfold markStatus. apply in_map_iff. exists s. split; [|exact Hin].
    unfold hasId. rewrite Hid, String.eqb_refl. reflexivity.
  - intros id' Hother. unfold statusOf. simpl.
    apply statusOf_markStatus_other, Hother.
Qed.

End Forward.

(** ** Every run, allowed or not *)

Section EveryRun.

Context {platform : Platform}.

(** What an operation does to the list and to the pending timers. *)
Lemma perform_shape (op : Op) (w : World) :
  (sessions (perform op w) = sessions w
   /\ (timers (perform op w) = timers w
       \/ exists d cb,
            timers (perform op w) = (timers w ++ [mkTimer d cb])%list
            /\ isCreation cb = true
            /\ forall p, cb = ResumeCreatePair p -> p <> ""))
  \/ (exists id,
        sessions (perform op w) = markStatus id connected (sessions w)
        /\ timers (perform op w) = timers w)
  \/ (exists id k t,
        nth_error (timers w) k = Some t /\ callback t = ConnectionTimeout id
        /\ sessions (perform op w) = markStatus id disconnected (sessions w)
        /\ timers (perform op w) = removeNth k (timers w))
  \/ (exists id,
        sessions (perform op w)
        = filter (fun session => negb (hasId id session)) (sessions w)
        /\ timers (perform op w) = timers w)
  \/ (exists k t new,
        nth_error (timers w) k = Some t
        /\ (callback t = ResumeCreateQR
            /\ new = newQRSession (setTimers (removeNth k (timers w)) w)
            \/ exists p, callback t = ResumeCreatePair p
                         /\ new = newPairSession p (setTimers (removeNth k (timers w)) w))
        /\ sessions (perform op w) = new :: sessions w
        /\ timers (perform op w)
           = (removeNth k (timers w)
              ++ [mkTimer (now (perform op w) + timeoutDelay new)
                          (ConnectionTimeout (sessionId new))])%list).
Proof.
  destruct op as [ | | value | id | id | text type | ms | k]; unfold perform.
  - left. destruct (click_fields ResumeCreateQR 1500 w) as (Hs & _ & Ht & _).
    split; [exact Hs|]. right. eexists _, ResumeCreateQR.
    split; [exact Ht|]. split; [reflexivity|]. intros p Hp. discriminate Hp.
  - left. rewrite exec_createPairSession.
    destruct (String.eqb_spec (phoneNumberInput w) "") as [Hempty|Hphone].
    + split; [reflexivity | left; reflexivity].
    + destruct (click_fields (ResumeCreatePair (phoneNumberInput w)) 2000 w)
        as (Hs & _ & Ht & _).
      split; [exact Hs|]. right. eexists _, (ResumeCreatePair (phoneNumberInput w)).
      split; [exact Ht|]. split; [reflexivity|]. intros p [= <-]. exact Hphone.
  - left. split; [reflexivity | left; reflexivity].
  - right. left. exists id. split; reflexivity.
  - right. right. right. left. exists id. split; reflexivity.
  - left. destruct (copyToClipboard_frame text type w) as (Hs & Ht & _).
    split; [exact Hs | left; exact Ht].
  - left. split; [reflexivity | left; reflexivity].
  - unfold fire. destruct (nth_error (timers w) k) as [t|] eqn:Hk;
      [|left; split; [reflexivity | left; reflexivity]].
    destruct (callback t) as [ | phone | id] eqn:Hcb; unfold runCallback.
    + right. right. right. right.
      exists k, t, (newQRSession (setTimers (removeNth k (timers w)) w)).
      split; [exact Hk|]. split; [left; split; [exact Hcb | reflexivity]|].
      destruct (resumeCreateQR_fields (setTimers (removeNth k (timers w)) w))
        as (Hs & _ & Ht & _).
      split; [exact Hs | exact Ht].
    + right. right. right. right.
      exists k, t, (newPairSession phone (setTimers (removeNth k (timers w)) w)).
      split; [exact Hk|]. split; [right; exists phone; split; [exact Hcb | reflexivity]|].
      destruct (resumeCreatePair_fields phone (setTimers (removeNth k (timers w)) w))
        as (Hs & _ & Ht & _).
      split; [exact Hs | exact Ht].
    + right. right. left. exists id, k, t.
      split; [exact Hk|]. split; [exact Hcb|]. split; reflexivity.
Qed.

End EveryRun.

Section EveryRunFacts.

Context {platform : Platform}.

Lemma connecting_has_timeout_perform (op : Op) (w : World) :
  (forall s, In s (sessions w) -> status s = connecting ->
             In (sessionId s) (timeoutIds (timers w))) ->
  forall s, In s (sessions (perform op w)) -> status s = connecting ->
            In (sessionId s) (timeoutIds (timers (perform op w))).
Proof.
  intros Hinv s' Hin Hst.
  destruct (perform_shape op w)
    as [[Hs Ht] | [(id & Hs & Ht) | [(id & k & t & Hk & Hcb & Hs & Ht)
       | [(id & Hs & Ht) | (k & t & new & Hk & Hnew & Hs & Ht)]]]];
    rewrite Hs in Hin.
  - destruct Ht as [-> | (d & cb & -> & _)]; [apply Hinv; assumption|].
    rewrite timeoutIds_app. apply in_app_iff. left. apply Hinv; assumption.
  - rewrite Ht. apply In_markStatus in Hin as (s & Hin & _ & _ & _ & [[-> _] | [_ Hst']]).
    + apply Hinv; assumption.
    + rewrite Hst in Hst'. discriminate Hst'.
  - apply In_markStatus in Hin as (s & Hin & _ & _ & _ & [[-> Hother] | [_ Hst']]).
    + destruct (timers_split _ _ _ Hk) as (l1 & l2 & Hsplit & Hrest).
      rewrite Ht, Hrest, timeoutIds_app.
      pose proof (Hinv s Hin Hst) as Hpending.
      rewrite Hsplit, timeoutIds_app in Hpending.
      change (t :: l2) with ([t] ++ l2)%list in Hpending.
      rewrite timeoutIds_app, (proj1 (timeoutIds_timeout t id Hcb)) in Hpending.
      apply in_app_iff in Hpending as [Hpending | [Heq | Hpending]];
        apply in_app_iff; [left; exact Hpending | | right; exact Hpending].
      exfalso. apply Hother. symmetry. exact Heq.
    + rewrite Hst in Hst'. discriminate Hst'.
  - rewrite Ht. apply filter_In in Hin as [Hin _]. apply Hinv; assumption.
  - rewrite Ht, timeoutIds_app. apply in_app_iff.
    destruct Hin as [<- | Hin]; [right; left; reflexivity | left].
    assert (Hresume : isResume t = true).
    { unfold isResume. destruct Hnew as [[-> _] | (p & -> & _)]; reflexivity. }
    destruct (timers_split _ _ _ Hk) as (l1 & l2 & Hsplit & Hrest).
    rewrite Hrest, timeoutIds_app.
    pose proof (Hinv s' Hin Hst) as Hpending.
    rewrite Hsplit, timeoutIds_app in Hpending.
    change (t :: l2) with ([t] ++ l2)%list in Hpending.
    rewrite timeoutIds_app, (timeoutIds_resume t Hresume) in Hpending.
    exact Hpending.
Qed.

(** X12: in every run from the initial state, whatever the order of the
    operations, the timeout of every connecting session of the list is
    pending: no session is left connecting for ever. *)
Theorem connecting_has_timeout (ops : list Op) (s : SessionData) :
  In s (sessions (run ops initialWorld)) ->
  status s = connecting ->
  In (sessionId s) (timeoutIds (timers (run ops initialWorld))).
Proof.
  revert s.
  assert (Hgen : forall w : World,
             (forall s, In s (sessions w) -> status s = connecting ->
                        In (sessionId s) (timeoutIds (timers w))) ->
             forall s, In s (sessions (run ops w)) -> status s = connecting ->
                       In (sessionId s) (timeoutIds (timers (run ops w)))).
  { induction ops as [|op ops IH]; intros w Hinv; [exact Hinv|].
    rewrite run_cons. apply IH, connecting_has_timeout_perform, Hinv. }
  apply Hgen. intros s [].
Qed.

(** A property of records that a change of status keeps and that the
    records built by the creations have, when the pairing creation runs
    with a phone number that is not empty, holds of every record of every
    run from the initial state. *)
Lemma every_record (P : SessionData -> Prop) :
  (forall st s, P s -> P (withStatus st s)) ->
  (forall w, P (newQRSession w)) ->
  (forall p w, p <> "" -> P (newPairSession p w)) ->
  forall (ops : list Op) (s : SessionData),
    In s (sessions (run ops initialWorld)) -> P s.
Proof.
  intros Hstatus Hqr Hpair.
  assert (Hstep : forall op w,
             ((forall s, In s (sessions w) -> P s)
              /\ forall t p, In t (timers w) -> callback t = ResumeCreatePair p -> p <> "") ->
             (forall s, In s (sessions (perform op w)) -> P s)
             /\ forall t p, In t (timers (perform op w)) ->
                            callback t = ResumeCreatePair p -> p <> "").
  { intros op w [Hall Hphones].
    assert (Hmarked : forall id st s', In s' (markStatus id st (sessions w)) -> P s').
    { intros id st s' Hin. unfold markStatus in Hin.
      apply in_map_iff in Hin as (s & <- & Hin).
      destruct (hasId id s); [apply Hstatus|]; apply Hall, Hin. }
    destruct (perform_shape op w)
      as [[Hs Ht] | [(id & Hs & Ht) | [(id & k & t & Hk & Hcb & Hs & Ht)
         | [(id & Hs & Ht) | (k & t & new & Hk & Hnew & Hs & Ht)]]]];
      rewrite Hs.
    - split; [exact Hall|]. destruct Ht as [-> | (d & cb & -> & _ & Hcb)]; [exact Hphones|].
      intros t p Hin Hp. apply in_app_iff in Hin as [Hin | [<- | []]].
      + apply (Hphones t p Hin Hp).
      + apply Hcb. exact Hp.
    - rewrite Ht. split; [apply Hmarked | exact Hphones].
    - rewrite Ht. split; [apply Hmarked|].
      intros t' p Hin Hp. apply (Hphones t' p (In_removeNth k _ _ Hin) Hp).
    - rewrite Ht. split; [|exact Hphones].
      intros s Hin. apply filter_In in Hin as [Hin _]. apply Hall, Hin.
    - rewrite Ht. split.
      + intros s [<- | Hin]; [|apply Hall, Hin].
        destruct Hnew as [[_ ->] | (p & Hcb & ->)]; [apply Hqr|].
        apply Hpair, (Hphones t p (nth_error_In _ _ Hk) Hcb).
      + intros t' p Hin Hp. apply in_app_iff in Hin as [Hin | [<- | []]].
        * apply (Hphones t' p (In_removeNth k _ _ Hin) Hp).
        * discriminate Hp. }
  intros ops.
  assert (Hgen : forall w : World,
             ((forall s, In s (sessions w) -> P s)
              /\ forall t p, In t (timers w) -> callback t = ResumeCreatePair p -> p <> "") ->
             forall s, In s (sessions (run ops w)) -> P s).
  { induction ops as [|op ops IH]; intros w Hinv; [exact (proj1 Hinv)|].
    rewrite run_cons. apply IH, Hstep, Hinv. }
  apply Hgen. split; [intros s [] | intros t p []].
Qed.

End EveryRunFacts.

(** ** The scannable code *)

Lemma length_append (a b : string) :
  String.length (a ++ b) = (String.length a + String.length b)%nat.
Proof. induction a as [|c a IH]; simpl; [reflexivity | rewrite IH; reflexivity]. Qed.

Lemma base64Digit_table :
  forallb (fun k => match base64Digit (N.of_nat k) with
                    | String c "" => isBase64Char c
                    | _ => false
                    end)
          (seq 0 64) = true.
Proof. vm_compute. reflexivity. Qed.

Lemma base64Digit_char (n : N) :
  (n < 64)%N ->
  exists c : ascii, base64Digit n = String c "" /\ isBase64Char c = true.
Proof.
  intros Hn. pose proof base64Digit_table as Htable.
  rewrite forallb_forall in Htable. specialize (Htable (N.to_nat n)).
  rewrite N2Nat.id in Htable.
  assert (Hin : In (N.to_nat n) (seq 0 64)) by (apply in_seq; lia).
  specialize (Htable Hin).
  destruct (base64Digit n) as [|c [|c' rest]]; try discriminate Htable.
  exists c. split; [reflexivity | exact Htable].
Qed.

(** A text of [n] base64 characters. *)
Lemma base64_text_app (a b : string) (n m : nat) :
  String.length a = n /\ forallb isBase64Char (list_ascii_of_string a) = true ->
  String.length b = m /\ forallb isBase64Char (list_ascii_of_string b) = true ->
  String.length (a ++ b) = (n + m)%nat
  /\ forallb isBase64Char (list_ascii_of_string (a ++ b)) = true.
Proof.
  intros [Hla Ha] [Hlb Hb]. split; [rewrite length_append, Hla, Hlb; reflexivity|].
  clear Hla. induction a as [|c a IH]; simpl in *; [exact Hb|].
  apply andb_true_iff in Ha as [Hc Ha]. rewrite Hc. apply IH, Ha.
Qed.

Lemma base64Digit_text (n : N) :
  (n < 64)%N ->
  String.length (base64Digit n) = 1%nat
  /\ forallb isBase64Char (list_ascii_of_string (base64Digit n)) = true.
Proof.
  intros Hn. destruct (base64Digit_char n Hn) as (c & -> & Hc).
  split; [reflexivity | simpl; rewrite Hc; reflexivity].
Qed.

Lemma base64_text (bytes : list N) :
  Forall (fun b => (b < 256)%N) bytes ->
  String.length (base64 bytes) = (4 * ((List.length bytes + 2) / 3))%nat
  /\ forallb isBase64Char (list_ascii_of_string (base64 bytes)) = true.
Proof.
  assert (Hthree :
            forall l : list N,
              Forall (fun b => (b < 256)%N) l ->
              (String.length (base64 l) = (4 * ((List.length l + 2) / 3))%nat
               /\ forallb isBase64Char (list_ascii_of_string (base64 l)) = true)
              /\ (forall x, (x < 256)%N ->
                    String.length (base64 (x :: l))
                    = (4 * ((List.length (x :: l) + 2) / 3))%nat
                    /\ forallb isBase64Char (list_ascii_of_string (base64 (x :: l))) = true)
              /\ (forall x y, (x < 256)%N -> (y < 256)%N ->
                    String.length (base64 (x :: y :: l))
                    = (4 * ((List.length (x :: y :: l) + 2) / 3))%nat
                    /\ forallb isBase64Char
                               (list_ascii_of_string (base64 (x :: y :: l))) = true)).
  { induction l as [|a l IH]; intros Hall.
    - split; [split; reflexivity|]. split.
      + intros x Hx.
        change (base64 [x])
          with (base64Digit (x / 4) ++ base64Digit ((x mod 4) * 16) ++ "==").
        change (4 * ((List.length [x] + 2) / 3))%nat with (1 + (1 + 2))%nat.
        apply base64_text_app; [apply base64Digit_text|].
        { apply N.Div0.div_lt_upper_bound. lia. }
        apply base64_text_app; [apply base64Digit_text | split; reflexivity].
        pose proof (N.mod_lt x 4). lia.
      + intros x y Hx Hy.
        change (base64 [x; y])
          with (base64Digit (x / 4) ++ base64Digit ((x mod 4) * 16 + y / 16)
                ++ base64Digit ((y mod 16) * 4) ++ "=").
        change (4 * ((List.length [x; y] + 2) / 3))%nat with (1 + (1 + (1 + 1)))%nat.
        apply base64_text_app; [apply base64Digit_text|].
        { apply N.Div0.div_lt_upper_bound. lia. }
        apply base64_text_app; [apply base64Digit_text|].
        { pose proof (N.mod_lt x 4).
          assert (y / 16 < 16)%N by (apply N.Div0.div_lt_upper_bound; lia). lia. }
        apply base64_text_app; [apply base64Digit_text | split; reflexivity].
        pose proof (N.mod_lt y 16). lia.
    - inversion Hall as [|? ? Ha Hl]; subst.
      destruct (IH Hl) as (Hzero & Hone & Htwo).
      split; [apply Hone, Ha|]. split; [intros x Hx; apply Htwo; assumption|].
      intros x y Hx Hy.
      change (base64 (x :: y :: a :: l))
        with (base64Digit (x / 4) ++ base64Digit ((x mod 4) * 16 + y / 16)
              ++ base64Digit ((y mod 16) * 4 + a / 64) ++ base64Digit (a mod 64)
              ++ base64 l).
      replace (4 * ((List.length (x :: y :: a :: l) + 2) / 3))%nat
        with (1 + (1 + (1 + (1 + 4 * ((List.length l + 2) / 3)))))%nat.
      2:{ simpl List.length.
          replace (S (S (S (List.length l))) + 2)%nat
            with ((List.length l + 2) + 1 * 3)%nat by lia.
          rewrite Nat.div_add by lia. lia. }
      apply base64_text_app; [apply base64Digit_text|].
      { apply N.Div0.div_lt_upper_bound. lia. }
      apply base64_text_app; [apply base64Digit_text|].
      { pose proof (N.mod_lt x 4).
        assert (y / 16 < 16)%N by (apply N.Div0.div_lt_upper_bound; lia). lia. }
      apply base64_text_app; [apply base64Digit_text|].
      { pose proof (N.mod_lt y 16).
        assert (a / 64 < 4)%N by (apply N.Div0.div_lt_upper_bound; lia). lia. }
      apply base64_text_app; [apply base64Digit_text | exact Hzero].
      apply N.mod_lt. lia. }
  intros Hall. apply (Hthree bytes Hall).
Qed.

Lemma btoa_text (s : string) :
  String.length (btoa s) = (4 * ((String.length s + 2) / 3))%nat
  /\ forallb isBase64Char (list_ascii_of_string (btoa s)) = true.
Proof.
  unfold btoa.
  assert (Hlen : List.length (map N_of_ascii (list_ascii_of_string s)) = String.length s).
  { rewrite length_map. induction s as [|c s IH]; simpl; [reflexivity | rewrite IH; reflexivity]. }
  rewrite <- Hlen. apply base64_text.
  apply Forall_forall. intros b Hin. apply in_map_iff in Hin as (c & <- & _).
  apply N_ascii_bounded.
Qed.

Lemma decimal_nonempty (n : Z) : (1 <= String.length (decimal n))%nat.
Proof.
  unfold decimal, NilZero.string_of_int, NilZero.string_of_uint.
  destruct (Z.to_int n) as [d | d]; destruct d; simpl; lia.
Qed.

Section ScannableCode.

Context {platform : Platform}.

(** X16: whatever [Math.random()] and the clock give, the scannable code
    that [generateQRCode] returns is a padded base64 text: its characters
    are letters, digits, [+], [/] and [=], and its length is a multiple of
    four, at least eight. *)
Theorem generateQRCode_base64 (w : World) :
  forallb isBase64Char (list_ascii_of_string (eval generateQRCode w)) = true
  /\ (String.length (eval generateQRCode w) mod 4 = 0)%nat
  /\ (8 <= String.length (eval generateQRCode w))%nat.
Proof.
  set (a := substring_2_15 (toString36 (Math_random (draws w)))).
  set (b := substring_2_15 (toString36 (Math_random (S (draws w))))).
  set (t := eval DateNow w).
  change (eval generateQRCode w)
    with (btoa ("2@" ++ a ++ "," ++ b ++ "," ++ decimal t)).
  destruct (btoa_text ("2@" ++ a ++ "," ++ b ++ "," ++ decimal t)) as [Hlen Hchars].
  split; [exact Hchars|]. rewrite Hlen. split.
  - rewrite Nat.mul_comm. apply Nat.Div0.mod_mul.
  - assert (Hpayload : (5 <= String.length ("2@" ++ a ++ "," ++ b ++ "," ++ decimal t))%nat).
    { rewrite !length_append. simpl. pose proof (decimal_nonempty t). lia. }
    assert (Hdiv : (2 <= (String.length ("2@" ++ a ++ "," ++ b ++ "," ++ decimal t) + 2) / 3)%nat).
    { change 2%nat with ((5 + 2) / 3)%nat at 1. apply Nat.Div0.div_le_mono. lia. }
    lia.
Qed.

End ScannableCode.

(** ** What the page shows of the records *)

Lemma btoa_nonempty (s : string) : s <> "" -> btoa s <> "".
Proof.
  intros Hs Hempty. destruct (btoa_text s) as [Hlen _].
  rewrite Hempty in Hlen. change (String.length "") with 0%nat in Hlen.
  destruct s as [|c s]; [contradiction|].
  change (String.length (String c s)) with (S (String.length s)) in Hlen.
  assert (Hdiv : (1 <= (S (String.length s) + 2) / 3)%nat).
  { change 1%nat with ((1 + 2) / 3)%nat at 1. apply Nat.Div0.div_le_mono. lia. }
  lia.
Qed.

Lemma truthy_nonempty (s : string) : s <> "" -> truthy (Some s) = true.
Proof. destruct s; [contradiction | reflexivity]. Qed.

Section Page.

Context {platform : Platform}.

Lemma showsQRCode_new (w : World) : showsQRCode (newQRSession w) = true.
Proof.
  unfold showsQRCode, newQRSession. cbn [qrCode].
  apply truthy_nonempty.
  set (w1 := exec generateSessionId w).
  set (a := substring_2_15 (toString36 (Math_random (draws w1)))).
  set (b := substring_2_15 (toString36 (Math_random (S (draws w1))))).
  change (eval generateQRCode w1)
    with (btoa ("2@" ++ a ++ "," ++ b ++ "," ++ decimal (eval DateNow w1))).
  apply btoa_nonempty. discriminate.
Qed.

Lemma generatePairCode_nonempty (w : World) :
  (forall k : nat, unitInterval (Math_random k)) ->
  eval generatePairCode w <> "".
Proof.
  intros Hrandom.
  change (eval generatePairCode w)
    with (orElse (option_map (join "-") (match_1_4 (eval (pairCodeLoop 8 "") w)))
                 (eval (pairCodeLoop 8 "") w)).
  destruct (pairCodeLoop_appends 8 Hrandom "" w) as (cs & Hlen & Hall & ->).
  destruct cs as [|c1 [|c2 [|c3 [|c4 [|c5 [|c6 [|c7 [|c8 [|c9 cs]]]]]]]]];
    try discriminate Hlen.
  simpl in Hall.
  repeat (apply andb_true_iff in Hall as [?Hc Hall]).
  unfold match_1_4. simpl.
  rewrite (codeChar_not_terminator c1), (codeChar_not_terminator c2),
    (codeChar_not_terminator c3), (codeChar_not_terminator c4),
    (codeChar_not_terminator c5), (codeChar_not_terminator c6),
    (codeChar_not_terminator c7), (codeChar_not_terminator c8) by assumption.
  simpl. discriminate.
Qed.

(** X13: in every run from the initial state, whatever the order of the
    operations and whatever is typed while a creation is pending, a record
    with a pairing code shows a phone number that is not empty, and a
    record without one shows its scannable code and no phone number. *)
Theorem record_phone_or_scan (ops : list Op) (s : SessionData) :
  In s (sessions (run ops initialWorld)) ->
  match pairCode s with
  | Some _ => showsPhone s = true /\ showsQRCode s = false
  | None => showsQRCode s = true /\ showsPhone s = false
  end.
Proof.
  apply (every_record
           (fun s => match pairCode s with
                     | Some _ => showsPhone s = true /\ showsQRCode s = false
                     | None => showsQRCode s = true /\ showsPhone s = false
                     end)).
  - intros st s0 H0. exact H0.
  - intros w. cbn [pairCode newQRSession]. split; [apply showsQRCode_new | reflexivity].
  - intros p w Hp. cbn [pairCode newPairSession].
    split; [apply truthy_nonempty, Hp | reflexivity].
Qed.

(** X14: when every [Math.random()] returns a number of [0, 1), in every
    run from the initial state every record shows exactly one artifact on
    the page: the "QR Code Data" block alone, or the "Pairing Code" block
    together with the phone number. *)
Theorem record_shows_one_artifact (ops : list Op) (s : SessionData) :
  (forall k : nat, unitInterval (Math_random k)) ->
  In s (sessions (run ops initialWorld)) ->
  showsOneArtifact s = true.
Proof.
  intros Hrandom.
  apply (every_record (fun s => showsOneArtifact s = true)).
  - intros st s0 H0. exact H0.
  - intros w. unfold showsOneArtifact. rewrite showsQRCode_new. reflexivity.
  - intros p w Hp. unfold showsOneArtifact, showsQRCode, showsPairCode, showsPhone.
    cbn [qrCode pairCode phoneNumber newPairSession].
    rewrite (truthy_nonempty p Hp),
      (truthy_nonempty _ (generatePairCode_nonempty (exec generateSessionId w) Hrandom)).
    reflexivity.
Qed.

End Page.

(** X15: statuses that differ are shown differently: [getStatusColor] and
    [getStatusIcon] give different colours and different icons to
    different statuses. *)
Theorem status_display_injective (a b : Status) :
  getStatusColor a = getStatusColor b \/ getStatusIcon a = getStatusIcon b ->
  a = b.
Proof.
  destruct a, b; intros [H | H]; try reflexivity; discriminate H.
Qed.

(** ** The toast log *)

Section ToastLog.

Context {platform : Platform}.

Lemma toasts_perform (op : Op) (w : World) :
  exists ts : list Toast,
    toasts (perform op w) = (toasts w ++ ts)%list
    /\ (List.length ts <= 1)%nat
    /\ forall t, In t ts -> isError t = true -> t = phoneNumberRequired.
Proof.
  assert (Hnone : forall w' : World,
             toasts w' = toasts w ->
             exists ts : list Toast,
               toasts w' = (toasts w ++ ts)%list
               /\ (List.length ts <= 1)%nat
               /\ forall t, In t ts -> isError t = true -> t = phoneNumberRequired).
  { intros w' Hsame. exists []. rewrite app_nil_r. repeat split;
      [exact Hsame | simpl; lia | intros t []]. }
  assert (Hone : forall (w' : World) (t0 : Toast),
             toasts w' = (toasts w ++ [t0])%list ->
             (isError t0 = true -> t0 = phoneNumberRequired) ->
             exists ts : list Toast,
               toasts w' = (toasts w ++ ts)%list
               /\ (List.length ts <= 1)%nat
               /\ forall t, In t ts -> isError t = true -> t = phoneNumberRequired).
  { intros w' t0 Hadd Herr. exists [t0]. repeat split;
      [exact Hadd | simpl; lia|]. intros t [<- | []]. exact Herr. }
  destruct op as [ | | value | id | id | text type | ms | k]; unfold perform.
  - apply Hnone. reflexivity.
  - rewrite exec_createPairSession.
    destruct (String.eqb (phoneNumberInput w) "").
    + apply (Hone _ phoneNumberRequired); [reflexivity | reflexivity].
    + apply Hnone. reflexivity.
  - apply Hnone. reflexivity.
  - apply (Hone _ connectedToast); [reflexivity | discriminate].
  - apply (Hone _ deletedToast); [reflexivity | discriminate].
  - unfold exec, copyToClipboard.
    destruct navigator_clipboard as [fulfilled|]; [|apply Hnone; reflexivity].
    apply (Hone _ (copiedToast type)); [|discriminate].
    destruct (fulfilled text); reflexivity.
  - apply Hnone. reflexivity.
  - unfold fire. destruct (nth_error (timers w) k) as [t|]; [|apply Hnone; reflexivity].
    destruct (callback t) as [ | phone | id]; unfold runCallback.
    + apply (Hone _ qrCreatedToast); [|discriminate].
      apply (resumeCreateQR_fields (setTimers (removeNth k (timers w)) w)).
    + apply (Hone _ pairCreatedToast); [|discriminate].
      apply (resumeCreatePair_fields phone (setTimers (removeNth k (timers w)) w)).
    + apply Hnone. reflexivity.
Qed.

Lemma toasts_run (ops : list Op) :
  forall w : World,
  exists ts : list Toast,
    toasts (run ops w) = (toasts w ++ ts)%list
    /\ (List.length ts <= List.length ops)%nat
    /\ forall t, In t ts -> isError t = true -> t = phoneNumberRequired.
Proof.
  induction ops as [|op ops IH]; intros w.
  - exists []. rewrite app_nil_r. repeat split; [simpl; lia | intros t []].
  - rewrite run_cons.
    destruct (toasts_perform op w) as (ts1 & H1 & Hlen1 & Herr1).
    destruct (IH (perform op w)) as (ts2 & H2 & Hlen2 & Herr2).
    exists (ts1 ++ ts2)%list. repeat split.
    + rewrite H2, H1, app_assoc. reflexivity.
    + rewrite length_app. simpl. lia.
    + intros t Hin Herr. apply in_app_iff in Hin as [Hin | Hin]; auto.
Qed.

(** X17: a run only adds toasts to the log, at most one per operation,
    and the only toast that reports a failure is "Phone Number Required":
    no deletion, connection, copy or creation ever shows one.  The copy
    handler calls [navigator.clipboard.writeText] first: where
    [navigator.clipboard] is undefined the call throws, the handler ends
    there and nothing changes, no toast is shown; otherwise the handler
    returns and shows "Copied!", whether the write is fulfilled (the text
    is then on the clipboard) or rejected (the clipboard is as it
    was). *)
Theorem toast_log_grows (ops : list Op) (text type : string) (w : World) :
  (exists ts : list Toast,
     toasts (run ops w) = (toasts w ++ ts)%list
     /\ (List.length ts <= List.length ops)%nat
     /\ forall t, In t ts -> isError t = true -> t = phoneNumberRequired)
  /\ match navigator_clipboard with
     | None =>
         eval (copyToClipboard text type) w = threw
         /\ exec (copyToClipboard text type) w = w
     | Some fulfilled =>
         eval (copyToClipboard text type) w = returned
         /\ toasts (exec (copyToClipboard text type) w)
            = (toasts w ++ [copiedToast type])%list
         /\ clipboard (exec (copyToClipboard text type) w)
            = if fulfilled text then Some text else clipboard w
     end.
Proof.
  split; [apply toasts_run|].
  unfold eval, exec, copyToClipboard.
  destruct navigator_clipboard as [fulfilled|]; [|split; reflexivity].
  destruct (fulfilled text); repeat split.
Qed.

End ToastLog.

(** ** How the operations on the list compose *)

Lemma markStatus_twice (id : string) (s1 s2 : Status) (l : list SessionData) :
  markStatus id s2 (markStatus id s1 l) = markStatus id s2 l.
Proof.
  unfold markStatus. rewrite map_map. apply map_ext. intros x.
  destruct (hasId id x) eqn:Hx; [|rewrite Hx; reflexivity].
  unfold hasId in *. simpl. rewrite Hx. reflexivity.
Qed.

Lemma markStatus_swap (id1 id2 : string) (s1 s2 : Status) (l : list SessionData) :
  id1 <> id2 ->
  markStatus id1 s1 (markStatus id2 s2 l) = markStatus id2 s2 (markStatus id1 s1 l).
Proof.
  intros Hother. unfold markStatus. rewrite !map_map. apply map_ext. intros x.
  unfold hasId.
  destruct (String.eqb (sessionId x) id1) eqn:H1;
    destruct (String.eqb (sessionId x) id2) eqn:H2; simpl; rewrite ?H1, ?H2;
    try reflexivity.
  exfalso. apply Hother. apply String.eqb_eq in H1, H2. rewrite <- H1, H2. reflexivity.
Qed.

Lemma filter_swap {A : Type} (p q : A -> bool) (l : list A) :
  filter p (filter q l) = filter q (filter p l).
Proof.
  induction l as [|x l IH]; simpl; [reflexivity|].
  destruct (q x) eqn:Hq, (p x) eqn:Hp; simpl; rewrite ?Hq, ?Hp, IH; reflexivity.
Qed.

Lemma filter_markStatus (id1 id2 : string) (s : Status) (l : list SessionData) :
  filter (fun session => negb (hasId id1 session)) (markStatus id2 s l)
  = markStatus id2 s (filter (fun session => negb (hasId id1 session)) l).
Proof.
  induction l as [|x l IH]; simpl; [reflexivity|].
  assert (Hid : hasId id1 (if hasId id2 x then withStatus s x else x) = hasId id1 x)
    by (destruct (hasId id2 x); reflexivity).
  rewrite Hid. destruct (hasId id1 x); simpl; rewrite IH; reflexivity.
Qed.

(** X18: on the records of one identifier the last operation decides:
    the timeout after a connection gives the list the timeout alone gives,
    and the other way round; repeating an operation changes nothing more;
    and a deletion gives the same list whether or not the session was
    connected or timed out before. *)
Theorem last_operation_wins (id : string) (w : World) :
  sessions (exec (connectionTimeout id) (exec (simulateConnection id) w))
  = sessions (exec (connectionTimeout id) w)
  /\ sessions (exec (simulateConnection id) (exec (connectionTimeout id) w))
     = sessions (exec (simulateConnection id) w)
  /\ sessions (exec (simulateConnection id) (exec (simulateConnection id) w))
     = sessions (exec (simulateConnection id) w)
  /\ sessions (exec (connectionTimeout id) (exec (connectionTimeout id) w))
     = sessions (exec (connectionTimeout id) w)
  /\ sessions (exec (deleteSession id) (exec (simulateConnection id) w))
     = sessions (exec (deleteSession id) w)
  /\ sessions (exec (deleteSession id) (exec (connectionTimeout id) w))
     = sessions (exec (deleteSession id) w).
Proof.
  assert (Habsorb : forall s,
             filter (fun session => negb (hasId id session)) (markStatus id s (sessions w))
             = filter (fun session => negb (hasId id session)) (sessions w)).
  { intros s. rewrite filter_markStatus. apply markStatus_absent, filter_removes. }
  repeat split; simpl; try apply markStatus_twice; apply Habsorb.
Qed.

(** X19: operations on different identifiers commute on the list: a
    connection, a timeout or a deletion of one session and a connection, a
    timeout or a deletion of another give the same list in either order. *)
Theorem different_sessions_commute (id1 id2 : string) (w : World) :
  id1 <> id2 ->
  sessions (exec (simulateConnection id1) (exec (connectionTimeout id2) w))
  = sessions (exec (connectionTimeout id2) (exec (simulateConnection id1) w))
  /\ sessions (exec (simulateConnection id1) (exec (simulateConnection id2) w))
     = sessions (exec (simulateConnection id2) (exec (simulateConnection id1) w))
  /\ sessions (exec (connectionTimeout id1) (exec (connectionTimeout id2) w))
     = sessions (exec (connectionTimeout id2) (exec (connectionTimeout id1) w))
  /\ sessions (exec (deleteSession id1) (exec (simulateConnection id2) w))
     = sessions (exec (simulateConnection id2) (exec (deleteSession id1) w))
  /\ sessions (exec (deleteSession id1) (exec (connectionTimeout id2) w))
     = sessions (exec (connectionTimeout id2) (exec (deleteSession id1) w))
  /\ sessions (exec (deleteSession id1) (exec (deleteSession id2) w))
     = sessions (exec (deleteSession id2) (exec (deleteSession id1) w)).
Proof.
  intros Hother. repeat split; simpl;
    try (apply markStatus_swap; exact Hother); try apply filter_markStatus.
  apply filter_swap.
Qed.

(** ** Instances of the further properties *)

Lemma generateSessionId_distinct_witness :
  eval (DateNow (platform := halfPlatform)) initialWorld
  <> eval (DateNow (platform := halfPlatform)) (setNow 1500 initialWorld)
  /\ eval (generateSessionId (platform := halfPlatform)) initialWorld
     <> eval (generateSessionId (platform := halfPlatform)) (setNow 1500 initialWorld).
Proof.
  assert (Hnow : eval (DateNow (platform := halfPlatform)) initialWorld
                 <> eval (DateNow (platform := halfPlatform)) (setNow 1500 initialWorld))
    by discriminate.
  split; [exact Hnow|].
  exact (generateSessionId_distinct (platform := halfPlatform)
           initialWorld (setNow 1500 initialWorld) Hnow).
Defined.

Lemma createTwo_allowed :
  allEnabled (platform := halfPlatform) createTwo initialWorld = true.
Proof. vm_compute. reflexivity. Qed.

Lemma allowed_run_newest_first_witness :
  allEnabled (platform := halfPlatform) createTwo initialWorld = true
  /\ StronglySorted newerThan
                    (sessions (run (platform := halfPlatform) createTwo initialWorld)).
Proof.
  split; [exact createTwo_allowed|].
  exact (allowed_run_newest_first (platform := halfPlatform) createTwo createTwo_allowed).
Defined.

Lemma allowed_run_distinct_ids_witness :
  allEnabled (platform := halfPlatform) createTwo initialWorld = true
  /\ NoDup (map sessionId
                (sessions (run (platform := halfPlatform) createTwo initialWorld))).
Proof.
  split; [exact createTwo_allowed|].
  exact (allowed_run_distinct_ids (platform := halfPlatform) createTwo createTwo_allowed).
Defined.

Lemma allowed_run_one_creation_witness :
  allEnabled (platform := halfPlatform) [CreateQRSession; Tick 700] initialWorld = true
  /\ List.length
       (filter isResume
               (timers (run (platform := halfPlatform)
                            [CreateQRSession; Tick 700] initialWorld)))
     = if isGenerating (run (platform := halfPlatform)
                            [CreateQRSession; Tick 700] initialWorld)
       then 1%nat else 0%nat.
Proof.
  assert (Hen : allEnabled (platform := halfPlatform)
                           [CreateQRSession; Tick 700] initialWorld = true)
    by (vm_compute; reflexivity).
  split; [exact Hen|].
  exact (allowed_run_one_creation (platform := halfPlatform) _ Hen).
Defined.

Lemma allowed_run_one_timeout_witness :
  allEnabled (platform := halfPlatform) createTwo initialWorld = true
  /\ NoDup (timeoutIds (timers (run (platform := halfPlatform) createTwo initialWorld)))
  /\ forall s,
       In s (sessions (run (platform := halfPlatform) createTwo initialWorld)) ->
       status s = disconnected ->
       ~ In (sessionId s)
            (timeoutIds (timers (run (platform := halfPlatform) createTwo initialWorld))).
Proof.
  split; [exact createTwo_allowed|].
  exact (allowed_run_one_timeout (platform := halfPlatform) createTwo createTwo_allowed).
Defined.

Lemma allowed_run_deadline_witness :
  allEnabled (platform := slowPlatform) createOne initialWorld = true
  /\ In (mkTimer 31505 (ConnectionTimeout (sessionId slowScan)))
        (timers (run (platform := slowPlatform) createOne initialWorld))
  /\ In slowScan (sessions (run (platform := slowPlatform) createOne initialWorld))
  /\ (createdAt slowScan + timeoutDelay slowScan = 31504)%Z
  /\ (createdAt slowScan + timeoutDelay slowScan
      <= due (mkTimer 31505 (ConnectionTimeout (sessionId slowScan))))%Z.
Proof.
  assert (Hen : allEnabled (platform := slowPlatform) createOne initialWorld = true)
    by (vm_compute; reflexivity).
  assert (Ht : In (mkTimer 31505 (ConnectionTimeout (sessionId slowScan)))
                  (timers (run (platform := slowPlatform) createOne initialWorld)))
    by (vm_compute; left; reflexivity).
  assert (Hs : In slowScan
                  (sessions (run (platform := slowPlatform) createOne initialWorld)))
    by (vm_compute; left; reflexivity).
  split; [exact Hen|]. split; [exact Ht|]. split; [exact Hs|]. split; [reflexivity|].
  exact (allowed_run_deadline (platform := slowPlatform) createOne _ slowScan
                              Hen Ht Hs eq_refl).
Defined.

Lemma deleted_id_never_returns_witness :
  allEnabled (platform := halfPlatform)
             (createOne ++ DeleteSession scanId :: [Tick 30000; Fire 0]) initialWorld
  = true
  /\ existsb (hasId scanId)
             (sessions (run (platform := halfPlatform)
                            (createOne ++ DeleteSession scanId :: [Tick 30000; Fire 0])
                            initialWorld))
     = false.
Proof.
  assert (Hen : allEnabled (platform := halfPlatform)
                           (createOne ++ DeleteSession scanId :: [Tick 30000; Fire 0])
                           initialWorld = true)
    by (vm_compute; reflexivity).
  split; [exact Hen|].
  exact (proj1 (deleted_id_never_returns (platform := halfPlatform)
                  createOne [Tick 30000; Fire 0] scanId Hen)).
Defined.

Lemma allowed_transitions_witness :
  allEnabled (platform := halfPlatform)
             (createOne ++ [SimulateConnection scanId]) initialWorld = true
  /\ allowedTransition
       (statusOf scanId (run (platform := halfPlatform) createOne initialWorld))
       (statusOf scanId (run (platform := halfPlatform)
                             (createOne ++ [SimulateConnection scanId]) initialWorld))
     = true.
Proof.
  assert (Hen : allEnabled (platform := halfPlatform)
                           (createOne ++ [SimulateConnection scanId]) initialWorld = true)
    by (vm_compute; reflexivity).
  split; [exact Hen|].
  exact (allowed_transitions (platform := halfPlatform) createOne
                             (SimulateConnection scanId) scanId Hen).
Defined.

Lemma status_moves_forward_witness :
  allEnabled (platform := halfPlatform)
             (createOne ++ [DeleteSession scanId] ++ deleteThenCreate) initialWorld
  = true
  /\ statusOf scanId (run (platform := halfPlatform) createOne initialWorld)
     = Some connecting
  /\ statusOf scanId (run (platform := halfPlatform)
                          (createOne ++ [DeleteSession scanId]) initialWorld)
     = None
  /\ List.length (sessions (run (platform := halfPlatform)
                                (createOne ++ [DeleteSession scanId] ++ deleteThenCreate)
                                initialWorld))
     = 1%nat
  /\ (stage (statusOf scanId (run (platform := halfPlatform)
                                  (createOne ++ [DeleteSession scanId]) initialWorld))
      <= stage (statusOf scanId
                         (run (platform := halfPlatform)
                              (createOne ++ [DeleteSession scanId] ++ deleteThenCreate)
                              initialWorld)))%nat
  /\ statusOf scanId (run (platform := halfPlatform)
                          (createOne ++ [DeleteSession scanId] ++ deleteThenCreate)
                          initialWorld)
     = None.
Proof.
  assert (Hen : allEnabled (platform := halfPlatform)
                           (createOne ++ [DeleteSession scanId] ++ deleteThenCreate)
                           initialWorld = true)
    by (vm_compute; reflexivity).
  assert (Hlisted : statusOf scanId (run (platform := halfPlatform) createOne initialWorld)
                    = Some connecting)
    by (vm_compute; reflexivity).
  assert (Hsome : statusOf scanId (run (platform := halfPlatform) createOne initialWorld)
                  <> None)
    by (rewrite Hlisted; discriminate).
  assert (Hdeleted : statusOf scanId (run (platform := halfPlatform)
                                          (createOne ++ [DeleteSession scanId])
                                          initialWorld)
                     = None)
    by (vm_compute; reflexivity).
  split; [exact Hen|]. split; [exact Hlisted|]. split; [exact Hdeleted|].
  split; [vm_compute; reflexivity|].
  destruct (status_moves_forward (platform := halfPlatform) createOne
                                 [DeleteSession scanId] deleteThenCreate
                                 scanId Hen Hsome) as [Hstage Hgone].
  split; [exact Hstage | exact (Hgone Hdeleted)].
Defined.

Lemma delete_removes_one_witness :
  allEnabled (platform := halfPlatform) (createTwo ++ [DeleteSession scanId]) initialWorld
  = true
  /\ S (List.length
          (sessions (run (platform := halfPlatform)
                         (createTwo ++ [DeleteSession scanId]) initialWorld)))
     = List.length (sessions (run (platform := halfPlatform) createTwo initialWorld)).
Proof.
  assert (Hen : allEnabled (platform := halfPlatform)
                           (createTwo ++ [DeleteSession scanId]) initialWorld = true)
    by (vm_compute; reflexivity).
  split; [exact Hen|].
  exact (delete_removes_one (platform := halfPlatform) createTwo scanId Hen).
Defined.

Lemma simulate_connects_one_witness :
  allEnabled (platform := halfPlatform)
             (createTwo ++ [SimulateConnection scanId]) initialWorld = true
  /\ statusOf scanId (run (platform := halfPlatform) createTwo initialWorld)
     = Some connecting
  /\ statusOf scanId (run (platform := halfPlatform)
                          (createTwo ++ [SimulateConnection scanId]) initialWorld)
     = Some connected.
Proof.
  assert (Hen : allEnabled (platform := halfPlatform)
                           (createTwo ++ [SimulateConnection scanId]) initialWorld = true)
    by (vm_compute; reflexivity).
  split; [exact Hen|].
  destruct (simulate_connects_one (platform := halfPlatform) createTwo scanId Hen)
    as (Hbefore & Hafter & _).
  split; [exact Hbefore | exact Hafter].
Defined.

Lemma connecting_has_timeout_witness :
  In secondScan (sessions (run (platform := halfPlatform) createTwo initialWorld))
  /\ status secondScan = connecting
  /\ In (sessionId secondScan)
        (timeoutIds (timers (run (platform := halfPlatform) createTwo initialWorld))).
Proof.
  assert (Hs : In secondScan
                  (sessions (run (platform := halfPlatform) createTwo initialWorld)))
    by (vm_compute; left; reflexivity).
  split; [exact Hs|]. split; [reflexivity|].
  exact (connecting_has_timeout (platform := halfPlatform) createTwo secondScan Hs eq_refl).
Defined.

Lemma record_phone_or_scan_witness :
  In pairRecord (sessions (run (platform := halfPlatform) createPair initialWorld))
  /\ showsPhone pairRecord = true /\ showsQRCode pairRecord = false.
Proof.
  assert (Hs : In pairRecord
                  (sessions (run (platform := halfPlatform) createPair initialWorld)))
    by (vm_compute; left; reflexivity).
  split; [exact Hs|].
  exact (record_phone_or_scan (platform := halfPlatform) createPair pairRecord Hs).
Defined.

Lemma record_shows_one_artifact_witness :
  (forall k : nat, unitInterval (Math_random (Platform := halfPlatform) k))
  /\ In pairRecord (sessions (run (platform := halfPlatform) createPair initialWorld))
  /\ showsOneArtifact pairRecord = true.
Proof.
  assert (Hs : In pairRecord
                  (sessions (run (platform := halfPlatform) createPair initialWorld)))
    by (vm_compute; left; reflexivity).
  split; [exact halfPlatform_unitInterval|]. split; [exact Hs|].
  exact (record_shows_one_artifact (platform := halfPlatform) createPair pairRecord
                                   halfPlatform_unitInterval Hs).
Defined.

Lemma status_display_injective_witness :
  (getStatusColor connected = getStatusColor connected
   \/ getStatusIcon connected = getStatusIcon connected)
  /\ connected = connected.
Proof.
  split; [left; reflexivity|].
  exact (status_display_injective connected connected (or_introl eq_refl)).
Defined.

Lemma toast_log_grows_witness :
  (exists ts : list Toast,
     toasts (run (platform := slowPlatform)
                 [CreatePairSession; CopyToClipboard "SSSS-SSSS" "Pair Code"] initialWorld)
     = (toasts initialWorld ++ ts)%list
     /\ (List.length ts <= 2)%nat
     /\ forall t, In t ts -> isError t = true -> t = phoneNumberRequired)
  /\ eval (copyToClipboard (platform := slowPlatform) "SSSS-SSSS" "Pair Code") initialWorld
     = threw
  /\ exec (copyToClipboard (platform := slowPlatform) "SSSS-SSSS" "Pair Code") initialWorld
     = initialWorld.
Proof.
  exact (toast_log_grows (platform := slowPlatform)
                         [CreatePairSession; CopyToClipboard "SSSS-SSSS" "Pair Code"]
                         "SSSS-SSSS" "Pair Code" initialWorld).
Defined.

Lemma different_sessions_commute_witness :
  scanId <> sessionId secondScan
  /\ sessions (run (platform := halfPlatform) createTwo initialWorld)
     = [secondScan; firstScan]
  /\ sessions (exec (simulateConnection scanId)
                    (exec (connectionTimeout (sessionId secondScan))
                          (run (platform := halfPlatform) createTwo initialWorld)))
     = [withStatus disconnected secondScan; withStatus connected firstScan]
  /\ sessions (exec (simulateConnection scanId)
                    (exec (connectionTimeout (sessionId secondScan))
                          (run (platform := halfPlatform) createTwo initialWorld)))
     = sessions (exec (connectionTimeout (sessionId secondScan))
                      (exec (simulateConnection scanId)
                            (run (platform := halfPlatform) createTwo initialWorld)))
  /\ sessions (exec (deleteSession scanId)
                    (exec (connectionTimeout (sessionId secondScan))
                          (run (platform := halfPlatform) createTwo initialWorld)))
     = [withStatus disconnected secondScan]
  /\ sessions (exec (deleteSession scanId)
                    (exec (connectionTimeout (sessionId secondScan))
                          (run (platform := halfPlatform) createTwo initialWorld)))
     = sessions (exec (connectionTimeout (sessionId secondScan))
                      (exec (deleteSession scanId)
                            (run (platform := halfPlatform) createTwo initialWorld))).
Proof.
  assert (Hother : scanId <> sessionId secondScan) by discriminate.
  split; [exact Hother|].
  split; [vm_compute; reflexivity|]. split; [vm_compute; reflexivity|].
  destruct (different_sessions_commute
              scanId (sessionId secondScan)
              (run (platform := halfPlatform) createTwo initialWorld) Hother)
    as (Hconnect & _ & _ & _ & Hdelete & _).
  split; [exact Hconnect|]. split; [vm_compute; reflexivity | exact Hdelete].
Defined.

Lemma no_early_disconnect_witness :
  allEnabled (platform := halfPlatform) (createOne ++ [Tick 30000; Fire 0]) initialWorld
  = true
  /\ In (withStatus disconnected firstScan)
        (sessions (run (platform := halfPlatform)
                       (createOne ++ [Tick 30000; Fire 0]) initialWorld))
  /\ status (withStatus disconnected firstScan) = disconnected
  /\ (createdAt (withStatus disconnected firstScan)
      + timeoutDelay (withStatus disconnected firstScan)
      <= now (run (platform := halfPlatform)
                  (createOne ++ [Tick 30000; Fire 0]) initialWorld))%Z.
Proof.
  assert (Hen : allEnabled (platform := halfPlatform)
                           (createOne ++ [Tick 30000; Fire 0]) initialWorld = true)
    by (vm_compute; reflexivity).
  assert (Hs : In (withStatus disconnected firstScan)
                  (sessions (run (platform := halfPlatform)
                                 (createOne ++ [Tick 30000; Fire 0]) initialWorld)))
    by (vm_compute; left; reflexivity).
  split; [exact Hen|]. split; [exact Hs|]. split; [reflexivity|].
  exact (no_early_disconnect (platform := halfPlatform) _ _ Hen Hs eq_refl).
Defined.
